(** * Calorie tracker: the meal-analysis gateway and the day-log client

    A shallow embedding of the two source files of the repository:

    - [src/app/api/analyze/route.ts], the route handler [POST] that forwards a
      meal description to the estimation service and recomputes the totals
      (module [Gateway]);
    - the page component (module [Client]): [guessMealLabel],
      [computeTotals], [totals], [renderAssistantSummary] and [handleSubmit]
      over the component state.

    JavaScript numbers are IEEE 754 binary64 values, so they are embedded as
    Rocq's primitive floats: [+] is [PrimFloat.add], with its NaN, its
    infinities and its two zeros.  The values that [JSON.parse] produces are
    embedded as the inductive type [JS.value], with the coercions of the
    language ([ToBoolean], [ToString], [ToNumber]) written out. *)

From Stdlib Require Import ZArith Bool List Floats Lia.
From stdpp Require Import base option list strings gmap relations.
Import ListNotations.

Local Open Scope string_scope.
Local Open Scope list_scope.
Set Warnings "-register-all".

(** The four macro numbers; the accumulator of both reducers and the [total]
    and [macros] fields have this shape. *)
Record MacroBreakdown : Type := Macros {
  kcal : float;
  protein : float;
  carbs : float;
  fat : float
}.

(** The seed [{ kcal: 0, protein: 0, carbs: 0, fat: 0 }] of the reducers. *)
Definition no_macros : MacroBreakdown := Macros 0 0 0 0.

(** One step of an accumulator: the four fields added pairwise. *)
Definition add_macros (a b : MacroBreakdown) : MacroBreakdown :=
  Macros (kcal a + kcal b) (protein a + protein b)
         (carbs a + carbs b) (fat a + fat b).

(** Line feed, as the escape [\n] of a template literal. *)
Definition nl : string := String (Ascii.ascii_of_nat 10) EmptyString.

(** ** Numbers *)

Module Num.

(** A number is falsy when it is [+0], [-0] or [NaN]. *)
Definition truthy (n : float) : bool := negb (is_zero n || is_nan n).

(** [n || 0] on numbers. *)
Definition or_zero (n : float) : float := if truthy n then n else 0%float.

(** [0 <= n]; false on NaN, true on both zeros. *)
Definition nonneg (n : float) : bool := (0 <=? n)%float.

(** Left-to-right sum from [acc], the order in which a reducer adds. *)
Definition sum_from (acc : float) (l : list float) : float :=
  fold_left (fun a n => (a + n)%float) l acc.

(** The sum of a sequence: from [0], left to right. *)
Definition sum (l : list float) : float := sum_from 0%float l.

(** The same classification on the specification side of binary64. *)
Definition sf_nonneg (x : spec_float) : bool :=
  match x with
  | S754_zero _ => true
  | S754_infinity s => negb s
  | S754_nan => false
  | S754_finite s _ _ => negb s
  end.

End Num.

(** The four fields of a breakdown are non-negative. *)
Definition nonneg_macros (m : MacroBreakdown) : bool :=
  Num.nonneg (kcal m) && Num.nonneg (protein m) &&
  Num.nonneg (carbs m) && Num.nonneg (fat m).

(** ** JavaScript values *)

Module JS.

(** What [JSON.parse] (or a missing property) can give.  An object is its
    own properties in creation order; keys are distinct, as [JSON.parse]
    keeps one property per key. *)
Inductive value : Type :=
| VUndefined
| VNull
| VBool (b : bool)
| VNum (n : float)
| VStr (s : string)
| VArr (elems : list value)
| VObj (props : list (string * value)).

(** The builtins of the engine whose results the program only passes on:
    reading a string as a number ([Number] on a string) and printing a
    number ([String] on a number, as a template literal does). *)
Class Engine : Type := {
  StringToNumber : string -> float;
  Number_toString : float -> string
}.

(** Own property of an object. *)
Fixpoint own (k : string) (props : list (string * value)) : option value :=
  match props with
  | [] => None
  | (k', v) :: rest => if String.eqb k k' then Some v else own k rest
  end.

(** Property read [v.k]; [None] is the TypeError of reading a property of
    [undefined] or [null].  It is used for the property names the program
    reads (items, kcal, protein, carbs, fat, mealTitle, notes, confidence,
    message, imageBase64, mealLabel, error), none of which is defined on a builtin
    prototype, so a read on a primitive or an array misses. *)
Definition get (v : value) (k : string) : option value :=
  match v with
  | VUndefined | VNull => None
  | VObj props => Some (default VUndefined (own k props))
  | VBool _ | VNum _ | VStr _ | VArr _ => Some VUndefined
  end.

Definition ToBoolean (v : value) : bool :=
  match v with
  | VUndefined | VNull => false
  | VBool b => b
  | VNum n => Num.truthy n
  | VStr s => negb (String.eqb s "")
  | VArr _ | VObj _ => true
  end.

(** [a || b] *)
Definition or (a b : value) : value := if ToBoolean a then a else b.

(** [a ?? b] *)
Definition nullish (a b : value) : value :=
  match a with
  | VUndefined | VNull => b
  | _ => a
  end.

Definition isArray (v : value) : bool :=
  match v with VArr _ => true | _ => false end.

Definition typeof_number (v : value) : bool :=
  match v with VNum _ => true | _ => false end.

Section Coercions.
Context `{Engine}.

(** [ToString]; [None] is the TypeError of an object that cannot be made
    primitive.  A parsed object has no callable property: with an own
    property toString the inherited method is shadowed and the
    conversion throws, without one it prints as [[object Object]].  An
    array prints its elements joined by commas, [undefined] and [null]
    as the empty string. *)
Fixpoint ToString (v : value) : option string :=
  match v with
  | VUndefined => Some "undefined"
  | VNull => Some "null"
  | VBool b => Some (if b then "true" else "false")
  | VNum n => Some (Number_toString n)
  | VStr s => Some s
  | VArr elems =>
      (fix join (l : list value) : option string :=
         match l with
         | [] => Some ""
         | e :: rest =>
             let elem :=
               match e with
               | VUndefined | VNull => Some ""
               | _ => ToString e
               end in
             match rest with
             | [] => elem
             | _ :: _ =>
                 s ← elem; r ← join rest; Some (s +:+ "," +:+ r)
             end
         end) elems
  | VObj props =>
      match own "toString" props with
      | Some _ => None
      | None => Some "[object Object]"
      end
  end.

(** [Number(v)]; [None] is the same TypeError.  An array goes through
    its string; a plain object prints as [[object Object]], which is no
    numeric literal. *)
Definition ToNumber (v : value) : option float :=
  match v with
  | VUndefined => Some nan
  | VNull => Some 0%float
  | VBool b => Some (if b then 1%float else 0%float)
  | VNum n => Some n
  | VStr s => Some (StringToNumber s)
  | VArr _ => s ← ToString v; Some (StringToNumber s)
  | VObj props =>
      match own "toString" props with
      | Some _ => None
      | None => Some nan
      end
  end.

End Coercions.

End JS.

(** ** The gateway: [POST] of route.ts *)

Module Gateway.
Import JS.

(** One part of the user message sent to the estimation service. *)
Inductive ContentPart : Type :=
| TextPart (text : string)
| ImageUrlPart (url : value).

(** What the awaited [openai.chat.completions.create] call, followed by the
    read of [completion.choices[0].message.content], comes to.  [Rejected]:
    the call or the read throws.  [NoContent]: the content is [null].
    [Text raw parsed]: the content is the string [raw], and [parsed] is what
    [JSON.parse(raw)] makes of it, [None] when it throws. *)
Inductive Completion : Type :=
| Rejected
| NoContent
| Text (raw : string) (parsed : option value).

(** The effects of one run of the handler, in order. *)
Inductive Event : Type :=
| ReqJson
| ChatCompletionsCreate (userContent : list ContentPart)
| ConsoleError.

(** The success body handed to [NextResponse.json]. *)
Record Estimate : Type := {
  mealTitle : value;
  items : list value;
  notes : value;
  confidence : value;
  total : MacroBreakdown;
  raw : string
}.

Inductive Body : Type :=
| ErrorBody (error : string)
| EstimateBody (e : Estimate).

Record Response : Type := Json { body : Body; status : nat }.

(** A run ends with a response, or with an exception that no [try] of the
    handler catches. *)
Inductive Outcome : Type :=
| Responds (r : Response)
| Uncaught.

(** The error responses of the handler, under the names of the error
    taxonomy. *)
Definition ConfigurationError : Response :=
  Json (ErrorBody "OPENAI_API_KEY is not configured.") 500.
Definition InvalidPayload : Response :=
  Json (ErrorBody "Invalid JSON payload.") 400.
Definition MissingInput : Response :=
  Json (ErrorBody "Provide an image or a description to analyze.") 400.
Definition UpstreamError : Response :=
  Json (ErrorBody "Unable to analyze meal right now.") 500.
Definition Ok (e : Estimate) : Response := Json (EstimateBody e) 200.

(** [!process.env.OPENAI_API_KEY]: the variable is unset or empty. *)
Definition key_missing (key : option string) : bool :=
  match key with
  | None => true
  | Some k => String.eqb k ""
  end.

(** The body of a [try] block: the events performed, and the value reached
    unless something threw. *)
Definition Try (A : Type) : Type := list Event * option A.

Definition throw {A} : Try A := ([], None).
Definition emit (e : Event) : Try unit := ([e], Some tt).
Definition lift {A} (o : option A) : Try A := ([], o).
Definition bind {A B} (m : Try A) (f : A -> Try B) : Try B :=
  match m with
  | (t, Some a) => let '(t', r) := f a in (t ++ t', r)
  | (t, None) => (t, None)
  end.

Notation "'do' x <- m ; k" := (bind m (fun x => k))
  (at level 10, x name, m at level 100, k at level 200).

Section Handler.
Context `{Engine}.

(** [Number(x) || 0] for the property [k] of [item]. *)
Definition coerced (item : value) (k : string) : option float :=
  v ← get item k; n ← ToNumber v; Some (Num.or_zero n).

(** The callback of [items.reduce]. *)
Definition add_item (acc : MacroBreakdown) (item : value) : option MacroBreakdown :=
  k ← coerced item "kcal";
  p ← coerced item "protein";
  c ← coerced item "carbs";
  f ← coerced item "fat";
  Some (Macros (kcal acc + k) (protein acc + p) (carbs acc + c) (fat acc + f)).

(** [items.reduce(callback, seed)]; an exception of the callback ends it. *)
Fixpoint reduce (l : list value) (acc : MacroBreakdown) : option MacroBreakdown :=
  match l with
  | [] => Some acc
  | item :: rest => acc' ← add_item acc item; reduce rest acc'
  end.

(** [Array.isArray(parsed.items) ? parsed.items : []] *)
Definition items_of (parsed_items : value) : list value :=
  match parsed_items with
  | VArr l => l
  | _ => []
  end.

(** Lines 97 to 118: from the parsed completion to the success body. *)
Definition normalize (mealLabel : value) (raw : string) (parsed : value)
  : option Estimate :=
  parsed_items ← get parsed "items";
  let items := items_of parsed_items in
  total ← reduce items no_macros;
  title ← get parsed "mealTitle";
  notes ← get parsed "notes";
  conf ← get parsed "confidence";
  Some {| mealTitle := nullish title (nullish mealLabel (VStr "Meal"));
          items := items;
          notes := notes;
          confidence := if typeof_number conf then conf else VUndefined;
          total := total;
          raw := raw |}.

(** The text part of the user message. *)
Definition user_text (mealLabel message : value) : option string :=
  l ← ToString (nullish mealLabel (VStr "Meal"));
  m ← ToString (or message (VStr "None"));
  Some ("Meal label: " +:+ l +:+ nl +:+ "User description: " +:+ m).

Definition user_content (text : string) (imageBase64 : value) : list ContentPart :=
  TextPart text :: (if ToBoolean imageBase64 then [ImageUrlPart imageBase64] else []).

(** The [try] block, lines 58 to 118. *)
Definition analyze (create : list ContentPart -> Completion)
    (message imageBase64 mealLabel : value) : Try Estimate :=
  do text <- lift (user_text mealLabel message);
  let userContent := user_content text imageBase64 in
  do _ <- emit (ChatCompletionsCreate userContent);
  match create userContent with
  | Rejected | NoContent => throw
  | Text raw parsed =>
      if String.eqb raw "" then throw
      else
        do p <- lift parsed;
        lift (normalize mealLabel raw p)
  end.

(** The handler.  [key] is [process.env.OPENAI_API_KEY], [req_json] what
    [await req.json()] gives ([None] when it throws), [create] the
    estimation service. *)
Definition POST (key : option string) (req_json : option value)
    (create : list ContentPart -> Completion) : Outcome * list Event :=
  if key_missing key then (Responds ConfigurationError, [])
  else
    match req_json with
    | None => (Responds InvalidPayload, [ReqJson])
    | Some payload =>
        match get payload "message", get payload "imageBase64",
              get payload "mealLabel" with
        | Some message, Some imageBase64, Some mealLabel =>
            if negb (ToBoolean message) && negb (ToBoolean imageBase64)
            then (Responds MissingInput, [ReqJson])
            else
              match analyze create message imageBase64 mealLabel with
              | (t, Some e) => (Responds (Ok e), ReqJson :: t)
              | (t, None) => (Responds UpstreamError, ReqJson :: t ++ [ConsoleError])
              end
        | _, _, _ => (Uncaught, [ReqJson])
        end
    end.

(** *** The specification's reading of the totals *)

(** What a macro field of an item counts for in a total: the number that
    the field coerces to, and 0 when the field is missing or its coercion
    fails (a zero of either sign counts as 0 as well). *)
Definition counted (k : string) (item : value) : float :=
  match get item k ≫= ToNumber with
  | Some n => Num.or_zero n
  | None => 0%float
  end.

(** The four macros that an item counts for. *)
Definition counted_macros (item : value) : MacroBreakdown :=
  Macros (counted "kcal" item) (counted "protein" item)
         (counted "carbs" item) (counted "fat" item).

(** The element-wise sum over the items. *)
Definition sum_of_items (l : list value) : MacroBreakdown :=
  Macros (Num.sum (map (counted "kcal") l))
         (Num.sum (map (counted "protein") l))
         (Num.sum (map (counted "carbs") l))
         (Num.sum (map (counted "fat") l)).

(** *** The same reading, case by case *)

(** The property [k] of an item as the specification sees it: the value
    under that name in an object, and nothing for anything else. *)
Definition field_of (k : string) (item : value) : value :=
  match item with
  | VObj props =>
      match own k props with
      | Some v => v
      | None => VUndefined
      end
  | _ => VUndefined
  end.

(** A field value that is absent, a scalar, or an object without a
    property toString of its own. *)
Definition simple (v : value) : bool :=
  match v with
  | VUndefined | VNull | VBool _ | VNum _ | VStr _ => true
  | VObj props =>
      match own "toString" props with
      | Some _ => false
      | None => true
      end
  | VArr _ => false
  end.

(** What a simple field value counts for: a number for itself, and a text
    for the number that the engine reads in it, unless that is NaN or a
    zero; true for 1; a missing field, null, false and an object for 0. *)
Definition amount (v : value) : float :=
  match v with
  | VNum n => if is_nan n || is_zero n then 0%float else n
  | VStr s =>
      if is_nan (StringToNumber s) || is_zero (StringToNumber s)
      then 0%float else StringToNumber s
  | VBool true => 1%float
  | _ => 0%float
  end.

(** An item that can be counted: it is neither null nor undefined and its
    four macro fields are simple. *)
Definition countable (item : value) : bool :=
  match item with
  | VUndefined | VNull => false
  | _ =>
      simple (field_of "kcal" item) && simple (field_of "protein" item)
      && simple (field_of "carbs" item) && simple (field_of "fat" item)
  end.

(** The element-wise sum of the amounts. *)
Definition sum_of_amounts (l : list value) : MacroBreakdown :=
  Macros (Num.sum (map (fun item => amount (field_of "kcal" item)) l))
         (Num.sum (map (fun item => amount (field_of "protein" item)) l))
         (Num.sum (map (fun item => amount (field_of "carbs" item)) l))
         (Num.sum (map (fun item => amount (field_of "fat" item)) l)).

End Handler.

(** A macro field that is present and is a number. *)
Definition numeric_field (k : string) (item : value) : bool :=
  match get item k with
  | Some (VNum _) => true
  | _ => false
  end.

(** An item whose four macro fields are present and numbers. *)
Definition numeric_item (item : value) : bool :=
  numeric_field "kcal" item && numeric_field "protein" item &&
  numeric_field "carbs" item && numeric_field "fat" item.

(** The events that are a call of the estimation service. *)
Definition is_create (e : Event) : bool :=
  match e with
  | ChatCompletionsCreate _ => true
  | ReqJson | ConsoleError => false
  end.

(** The error bodies carry one of four fixed texts. *)
Definition fixed_errors : list Response :=
  [ConfigurationError; InvalidPayload; MissingInput; UpstreamError].

End Gateway.

(** ** The client: the page component *)

Module Client.

Module MealItem.
Record t : Type := {
  name : string;
  quantity : string;
  kcal : float;
  protein : float;
  carbs : float;
  fat : float
}.
End MealItem.

Module MealEntry.
Record t : Type := {
  id : string;
  title : string;
  time : string;
  macros : MacroBreakdown;
  items : list MealItem.t;
  image : option string;
  notes : option string;
  confidence : option float
}.
End MealEntry.

(** The decoded success body.  [mealTitle] and [items] are read through
    [||] and [??], so their absence is part of the type here. *)
Module AnalyzeResponse.
Record t : Type := {
  mealTitle : option string;
  items : option (list MealItem.t);
  notes : option string;
  confidence : option float;
  total : option MacroBreakdown
}.
End AnalyzeResponse.

Inductive Role : Type := assistant | user.
Record ChatMessage : Type := { role : Role; text : string }.
Inductive Theme : Type := light | dark.

Definition initialAssistantMessage : string :=
  "Upload a photo or tell me what you ate. I will estimate calories and macros with OpenAI and add it to your day.".

(** The state hooks of [Home]. *)
Record State : Type := {
  selectedDate : string;
  historyByDate : gmap string (list MealEntry.t);
  chat : list ChatMessage;
  message : string;
  imagePreview : option string;
  isSending : bool;
  error : option string;
  theme : Theme
}.

(** The state of the first render, for the date [today]. *)
Definition initial (today : string) : State :=
  {| selectedDate := today;
     historyByDate := ∅;
     chat := [{| role := assistant; text := initialAssistantMessage |}];
     message := "";
     imagePreview := None;
     isSending := false;
     error := None;
     theme := light |}.

(** The setters that [handleSubmit] calls; those of the log and of the
    transcript take an updater of the previous value. *)
Definition setHistoryByDate
    (f : gmap string (list MealEntry.t) -> gmap string (list MealEntry.t))
    (s : State) : State :=
  {| selectedDate := selectedDate s; historyByDate := f (historyByDate s);
     chat := chat s; message := message s; imagePreview := imagePreview s;
     isSending := isSending s; error := error s; theme := theme s |}.

Definition setChat (f : list ChatMessage -> list ChatMessage) (s : State) : State :=
  {| selectedDate := selectedDate s; historyByDate := historyByDate s;
     chat := f (chat s); message := message s; imagePreview := imagePreview s;
     isSending := isSending s; error := error s; theme := theme s |}.

Definition setMessage (m : string) (s : State) : State :=
  {| selectedDate := selectedDate s; historyByDate := historyByDate s;
     chat := chat s; message := m; imagePreview := imagePreview s;
     isSending := isSending s; error := error s; theme := theme s |}.

Definition setImagePreview (i : option string) (s : State) : State :=
  {| selectedDate := selectedDate s; historyByDate := historyByDate s;
     chat := chat s; message := message s; imagePreview := i;
     isSending := isSending s; error := error s; theme := theme s |}.

Definition setIsSending (b : bool) (s : State) : State :=
  {| selectedDate := selectedDate s; historyByDate := historyByDate s;
     chat := chat s; message := message s; imagePreview := imagePreview s;
     isSending := b; error := error s; theme := theme s |}.

Definition setError (e : option string) (s : State) : State :=
  {| selectedDate := selectedDate s; historyByDate := historyByDate s;
     chat := chat s; message := message s; imagePreview := imagePreview s;
     isSending := isSending s; error := e; theme := theme s |}.

Definition setSelectedDate (d : string) (s : State) : State :=
  {| selectedDate := d; historyByDate := historyByDate s;
     chat := chat s; message := message s; imagePreview := imagePreview s;
     isSending := isSending s; error := error s; theme := theme s |}.

Definition toggleTheme (s : State) : State :=
  {| selectedDate := selectedDate s; historyByDate := historyByDate s;
     chat := chat s; message := message s; imagePreview := imagePreview s;
     isSending := isSending s; error := error s;
     theme := match theme s with light => dark | dark => light end |}.

(** [handleFileChange] once the reader has loaded: without a file nothing
    changes; with one, the preview becomes the data URL that
    [readAsDataURL] produces, the scheme followed by [rest]. *)
Definition handleFileChange (file : option string) (s : State) : State :=
  match file with
  | None => s
  | Some rest => setImagePreview (Some ("data:" +:+ rest)) s
  end.

(** [historyByDate[selectedDate] ?? []] *)
Definition todaysEntries (s : State) : list MealEntry.t :=
  default [] (historyByDate s !! selectedDate s).

(** The day totals: the reducer over the entries of the selected date. *)
Definition totals (s : State) : MacroBreakdown :=
  fold_left
    (fun acc entry =>
       Macros (kcal acc + kcal (MealEntry.macros entry))
              (protein acc + protein (MealEntry.macros entry))
              (carbs acc + carbs (MealEntry.macros entry))
              (fat acc + fat (MealEntry.macros entry)))
    (todaysEntries s) no_macros.

(** [guessMealLabel], on the hour that [new Date().getHours()] gives. *)
Definition guessMealLabel (hour : Z) : string :=
  if (hour <? 11)%Z then "Breakfast"
  else if (hour <? 15)%Z then "Lunch"
  else if (hour <? 18)%Z then "Snack"
  else "Dinner".

Definition computeTotals (items : list MealItem.t) : MacroBreakdown :=
  fold_left
    (fun acc item =>
       Macros (kcal acc + Num.or_zero (MealItem.kcal item))
              (protein acc + Num.or_zero (MealItem.protein item))
              (carbs acc + Num.or_zero (MealItem.carbs item))
              (fat acc + Num.or_zero (MealItem.fat item)))
    items no_macros.

(** The element-wise sum over typed items, a NaN counting as 0. *)
Definition sum_of (items : list MealItem.t) : MacroBreakdown :=
  Macros (Num.sum (map (fun i => Num.or_zero (MealItem.kcal i)) items))
         (Num.sum (map (fun i => Num.or_zero (MealItem.protein i)) items))
         (Num.sum (map (fun i => Num.or_zero (MealItem.carbs i)) items))
         (Num.sum (map (fun i => Num.or_zero (MealItem.fat i)) items)).

(** The plain element-wise sum over typed items. *)
Definition plain_sum_of (items : list MealItem.t) : MacroBreakdown :=
  Macros (Num.sum (map MealItem.kcal items))
         (Num.sum (map MealItem.protein items))
         (Num.sum (map MealItem.carbs items))
         (Num.sum (map MealItem.fat items)).

(** An item whose four numbers [|| 0] leaves as they are: none is NaN or
    the negative zero. *)
Definition regular (i : MealItem.t) : Prop :=
  Num.or_zero (MealItem.kcal i) = MealItem.kcal i
  /\ Num.or_zero (MealItem.protein i) = MealItem.protein i
  /\ Num.or_zero (MealItem.carbs i) = MealItem.carbs i
  /\ Num.or_zero (MealItem.fat i) = MealItem.fat i.

(** The builtins that print the numbers of the summary line. *)
Class Display : Type := {
  Math_round : float -> float;
  Number_toString : float -> string;
  Number_toFixed0 : float -> string
}.

(** [l.join(sep)] on strings. *)
Fixpoint join (sep : string) (l : list string) : string :=
  match l with
  | [] => ""
  | [x] => x
  | x :: rest => x +:+ sep +:+ join sep rest
  end.

Definition renderAssistantSummary `{Display} (entry : MealEntry.t) : string :=
  let m := MealEntry.macros entry in
  let round x := Number_toString (Math_round x) in
  let macroLine :=
    round (kcal m) +:+ " kcal — P" +:+ round (protein m) +:+ "g C" +:+
    round (carbs m) +:+ "g F" +:+ round (fat m) +:+ "g" in
  let foods :=
    if (0 <? length (MealEntry.items entry))%nat
    then join ", "
           (map (fun i => MealItem.name i +:+ " (" +:+ MealItem.quantity i +:+ ")")
                (MealEntry.items entry))
    else MealEntry.title entry in
  let conf :=
    match MealEntry.confidence entry with
    | Some c => "Confidence: " +:+ Number_toFixed0 (c * 100)%float +:+ "%"
    | None => "Confidence: n/a"
    end in
  MealEntry.title entry +:+ ": " +:+ foods +:+ nl +:+ macroLine +:+ nl +:+ conf.

(** The body of the request to /api/analyze. *)
Module AnalyzePayload.
Record t : Type := {
  message : string;
  imageBase64 : option string;
  mealLabel : string
}.
End AnalyzePayload.

(** A thrown value: an [Error] with its message, or anything else. *)
Inductive Thrown : Type :=
| Error (message : string)
| NotAnError.

(** What [await res.json().catch(() => ({}))] gives for a response that is
    not ok: [Undecoded] when decoding throws, so that the catch clause
    gives the empty object, and [Decoded body] when the body decodes to the
    value [body], which the source does not type. *)
Inductive ErrorBody : Type :=
| Undecoded
| Decoded (body : JS.value).

(** What the request comes to.  [FetchRejects]: [fetch] throws.
    [NotOk err]: the response is not ok, with what its body gives.
    [OkRejects]: the response is ok and decoding its body throws.
    [OkData]: the decoded success body. *)
Inductive FetchResult : Type :=
| FetchRejects (e : Thrown)
| NotOk (err : ErrorBody)
| OkRejects (e : Thrown)
| OkData (data : AnalyzeResponse.t).

(** What one run of [handleSubmit] reads from outside the component: the
    gateway, the hour of the clock at the moment of the request and at the
    moment of the reply, a fresh identifier and the printed time; and, of
    the engine, its conversions and the messages of the two TypeErrors that
    the handling of a refusal can meet, on reading a property of null and
    on an object that has no primitive value. *)
Record World : Type := {
  fetch : AnalyzePayload.t -> FetchResult;
  hour_at_request : Z;
  hour_at_reply : Z;
  randomUUID : string;
  toLocaleTimeString : string;
  engine : JS.Engine;
  null_read_message : string;
  not_primitive_message : string
}.

(** The network calls of one run. *)
Inductive Effect : Type :=
| Fetch (body : AnalyzePayload.t).

(** [!s] on a string, [!i] on a string or null. *)
Definition empty (s : string) : bool := String.eqb s "".
Definition absent (i : option string) : bool :=
  match i with
  | None => true
  | Some u => empty u
  end.

(** [a || b] on strings. *)
Definition or_string (a : option string) (b : string) : string :=
  match a with
  | Some x => if empty x then b else x
  | None => b
  end.

(** The guard of [handleSubmit]: [!message && !imagePreview]. *)
Definition nothing_to_send (s : State) : bool :=
  empty (message s) && absent (imagePreview s).

Definition ValidationError : string := "Add a photo or describe your meal first.".

Definition request (w : World) (s : State) : AnalyzePayload.t :=
  {| AnalyzePayload.message := message s;
     AnalyzePayload.imageBase64 := imagePreview s;
     AnalyzePayload.mealLabel := guessMealLabel (hour_at_request w) |}.

(** Lines 114 to 124: the entry built from the decoded body. *)
Definition entry_of (w : World) (s : State) (data : AnalyzeResponse.t) : MealEntry.t :=
  let items := default [] (AnalyzeResponse.items data) in
  {| MealEntry.id := randomUUID w;
     MealEntry.title :=
       or_string (AnalyzeResponse.mealTitle data) (guessMealLabel (hour_at_reply w));
     MealEntry.time := toLocaleTimeString w;
     MealEntry.macros := default (computeTotals items) (AnalyzeResponse.total data);
     MealEntry.items := items;
     MealEntry.image := imagePreview s;
     MealEntry.notes := AnalyzeResponse.notes data;
     MealEntry.confidence := AnalyzeResponse.confidence data |}.

(** The updater of the log, lines 126 to 129. *)
Definition append_entry (date : string) (entry : MealEntry.t)
    (prev : gmap string (list MealEntry.t)) : gmap string (list MealEntry.t) :=
  <[date := default [] (prev !! date) ++ [entry]]> prev.

Definition say (r : Role) (t : string) (prev : list ChatMessage) : list ChatMessage :=
  prev ++ [{| role := r; text := t |}].

(** Lines 109 and 110: what is thrown for a response that is not ok.
    Reading the error of a body that is null throws; otherwise
    [new Error(err.error || "AI analysis failed")] takes for message the
    string of its argument, which throws in its turn for an object that
    has no primitive value. *)
Definition refusal (w : World) (err : ErrorBody) : Thrown :=
  let body :=
    match err with
    | Undecoded => JS.VObj []
    | Decoded v => v
    end in
  match JS.get body "error" with
  | None => Error (null_read_message w)
  | Some e =>
      match @JS.ToString (engine w) (JS.or e (JS.VStr "AI analysis failed")) with
      | Some m => Error m
      | None => Error (not_primitive_message w)
      end
  end.

(** The part of the [try] block up to the entry: the entry, or what is
    thrown. *)
Definition attempt (w : World) (s : State) (r : FetchResult) : Thrown + MealEntry.t :=
  match r with
  | FetchRejects e => inl e
  | NotOk err => inl (refusal w err)
  | OkRejects e => inl e
  | OkData data => inr (entry_of w s data)
  end.

(** The message that the [catch] clause shows. *)
Definition message_of (e : Thrown) : string :=
  match e with
  | Error m => m
  | NotAnError => "Something went wrong with OpenAI."
  end.

(** The state while the request is in flight: lines 93 to 95. *)
Definition pending (s : State) : State :=
  setChat (say user (or_string (Some (message s)) "(photo only)"))
    (setIsSending true (setError None s)).

(** The [finally] clause. *)
Definition finally (s : State) : State :=
  setImagePreview None (setMessage "" (setIsSending false s)).

Section Submit.
Context `{Display}.

(** The [try] and [catch] clauses once the request has come to [r]; [s0] is
    the state that the handler closed over, [s] the state being updated. *)
Definition settle (w : World) (s0 : State) (r : FetchResult) (s : State) : State :=
  match attempt w s0 r with
  | inr entry =>
      setChat (say assistant (renderAssistantSummary entry))
        (setHistoryByDate (append_entry (selectedDate s0) entry) s)
  | inl e =>
      setChat (say assistant (message_of e)) (setError (Some (message_of e)) s)
  end.

(** [handleSubmit]: the state after the run, and the network calls made. *)
Definition handleSubmit (w : World) (s : State) : State * list Effect :=
  if nothing_to_send s then (setError (Some ValidationError) s, [])
  else
    let body := request w s in
    (finally (settle w s (fetch w body) (pending s)), [Fetch body]).

(** One user action on the page. *)
Inductive step : State -> State -> Prop :=
| step_date d s : step s (setSelectedDate d s)
| step_type m s : step s (setMessage m s)
| step_file f s : step s (handleFileChange f s)
| step_theme s : step s (toggleTheme s)
| step_submit w s : step s (fst (handleSubmit w s)).

(** The states of a session that starts on the date [today]. *)
Definition reachable (s : State) : Prop :=
  exists today, rtc step (initial today) s.

End Submit.

(** *** The theme effects *)

(** What the theme effects read and write outside the component: the dark
    class of the root element and the theme item of the local storage. *)
Record Page : Type := {
  dark_class : bool;
  stored_theme : option string
}.

(** A theme as the string that it is in the source. *)
Definition theme_name (t : Theme) : string :=
  match t with
  | light => "light"
  | dark => "dark"
  end.

(** The effect that runs once on mount, lines 183 to 191: the stored theme
    when it is one of the two names, else the preference of the system. *)
Definition restoreTheme (p : Page) (prefersDark : bool) : Theme :=
  match stored_theme p with
  | Some stored =>
      if String.eqb stored "dark" then dark
      else if String.eqb stored "light" then light
      else if prefersDark then dark else light
  | None => if prefersDark then dark else light
  end.

(** The effect that runs on every change of the theme, lines 193 to 201. *)
Definition applyTheme (t : Theme) (p : Page) : Page :=
  {| dark_class := match t with dark => true | light => false end;
     stored_theme := Some (theme_name t) |}.

End Client.

(** ** A typed item as the object that it is *)

Module Encoding.
Import JS.

(** The object of a [MealItem]: its six properties, in the order of the
    type. *)
Definition item_value (i : Client.MealItem.t) : value :=
  VObj [("name", VStr (Client.MealItem.name i));
        ("quantity", VStr (Client.MealItem.quantity i));
        ("kcal", VNum (Client.MealItem.kcal i));
        ("protein", VNum (Client.MealItem.protein i));
        ("carbs", VNum (Client.MealItem.carbs i));
        ("fat", VNum (Client.MealItem.fat i))].

End Encoding.

(** ** Data for the examples *)

Module Examples.
Import JS.

(** An engine to run the examples with; the properties are stated for
    every engine.  The one text that an example coerces to a number is the
    word lots, which is no numeric literal, and no example prints a number:
    this engine answers NaN for every text. *)
Definition engine : Engine :=
  {| StringToNumber := fun _ => nan; JS.Number_toString := fun _ => "NaN" |}.

(** A display to run the examples with.  It leaves a number unrounded and
    prints every number as the same text; no statement below reads a
    summary line. *)
Definition display : Client.Display :=
  {| Client.Math_round := fun x => x;
     Client.Number_toString := fun _ => "NaN";
     Client.Number_toFixed0 := fun _ => "NaN" |}.

Definition item (name quantity : string) (k p c f : value) : value :=
  VObj [("name", VStr name); ("quantity", VStr quantity);
        ("kcal", k); ("protein", p); ("carbs", c); ("fat", f)].

Definition rice : value :=
  item "Rice" "1 cup" (VNum 200) (VNum 4) (VNum 45) (VNum 1).
Definition chicken : value :=
  item "Chicken" "100g" (VNum 165) (VNum 31) (VNum 0) (VNum 4).

(** A request with a description only. *)
Definition described : value := VObj [("message", VStr "rice and chicken")].

(** A completion whose own total disagrees with its items. *)
Definition rice_and_chicken : value :=
  VObj [("mealTitle", VStr "Lunch");
        ("items", VArr [rice; chicken]);
        ("total", VObj [("kcal", VNum 9999); ("protein", VNum 0);
                        ("carbs", VNum 0); ("fat", VNum 0)])].

(** An item with a macro field that is text, and one that is missing. *)
Definition soup : value :=
  VObj [("name", VStr "Soup"); ("quantity", VStr "1 bowl");
        ("kcal", VStr "lots"); ("protein", VNum 3); ("carbs", VNum 10)].
Definition vague : value := VObj [("items", VArr [soup])].

(** An item with a negative number. *)
Definition celery : value :=
  item "Celery" "1 stalk" (VNum (-5)) (VNum 0) (VNum 1) (VNum 0).
Definition negative : value := VObj [("items", VArr [celery])].

(** A completion whose items field is no sequence. *)
Definition no_list : value := VObj [("items", VStr "none")].

(** JSON text written with apostrophes for its double quotes. *)
Definition json_text (s : string) : string :=
  String.string_of_list_ascii
    (map (fun c => if Ascii.eqb c (Ascii.ascii_of_nat 39) then Ascii.ascii_of_nat 34 else c)
         (String.list_ascii_of_string s)).

Definition rice_and_chicken_text : string :=
  json_text "{'mealTitle':'Lunch','items':[{'name':'Rice','quantity':'1 cup','kcal':200,'protein':4,'carbs':45,'fat':1},{'name':'Chicken','quantity':'100g','kcal':165,'protein':31,'carbs':0,'fat':4}],'total':{'kcal':9999,'protein':0,'carbs':0,'fat':0}}".
Definition vague_text : string :=
  json_text "{'items':[{'name':'Soup','quantity':'1 bowl','kcal':'lots','protein':3,'carbs':10}]}".
Definition negative_text : string :=
  json_text "{'items':[{'name':'Celery','quantity':'1 stalk','kcal':-5,'protein':0,'carbs':1,'fat':0}]}".
Definition no_list_text : string := json_text "{'items':'none'}".

(** The estimation service answering the text [raw], which parses to
    [parsed], whatever it is asked. *)
Definition answering (raw : string) (parsed : value)
  : list Gateway.ContentPart -> Gateway.Completion :=
  fun _ => Gateway.Text raw (Some parsed).

(** The user message built for [described]. *)
Definition described_content : list Gateway.ContentPart :=
  [Gateway.TextPart
     ("Meal label: Meal" +:+ nl +:+ "User description: rice and chicken")].

(** The body that the handler builds from a completion taken as it is. *)
Definition estimate (title : string) (raw : string) (l : list value)
    (t : MacroBreakdown) : Gateway.Estimate :=
  {| Gateway.mealTitle := VStr title;
     Gateway.items := l;
     Gateway.notes := VUndefined;
     Gateway.confidence := VUndefined;
     Gateway.total := t;
     Gateway.raw := raw |}.

Definition clock (f : Client.AnalyzePayload.t -> Client.FetchResult) : Client.World :=
  {| Client.fetch := f;
     Client.hour_at_request := 13;
     Client.hour_at_reply := 13;
     Client.randomUUID := "6f1c";
     Client.toLocaleTimeString := "01:05 PM";
     Client.engine := engine;
     Client.null_read_message := "Cannot read properties of null (reading 'error')";
     Client.not_primitive_message := "Cannot convert object to primitive value" |}.

(** A gateway that is down, one that refuses, and one that answers. *)
Definition offline : Client.World :=
  clock (fun _ => Client.FetchRejects (Client.Error "Failed to fetch")).
Definition refusing : Client.World :=
  clock (fun _ =>
           Client.NotOk
             (Client.Decoded
                (VObj [("error", VStr "Unable to analyze meal right now.")]))).

(** A gateway that refuses with the body null, and one with a body that
    does not decode. *)
Definition refusing_null : Client.World :=
  clock (fun _ => Client.NotOk (Client.Decoded VNull)).
Definition refusing_garbled : Client.World :=
  clock (fun _ => Client.NotOk Client.Undecoded).
Definition empty_reply : Client.AnalyzeResponse.t :=
  {| Client.AnalyzeResponse.mealTitle := Some "Lunch";
     Client.AnalyzeResponse.items := Some [];
     Client.AnalyzeResponse.notes := None;
     Client.AnalyzeResponse.confidence := None;
     Client.AnalyzeResponse.total := None |}.
Definition replying (data : Client.AnalyzeResponse.t) : Client.World :=
  clock (fun _ => Client.OkData data).

(** The first render, and the same page once a description is typed. *)
Definition fresh : Client.State := Client.initial "2025-01-15".
Definition typed : Client.State := Client.setMessage "two eggs on toast" fresh.

(** The response that the gateway makes of [negative], decoded. *)
Definition celery_reply : Client.AnalyzeResponse.t :=
  {| Client.AnalyzeResponse.mealTitle := Some "Meal";
     Client.AnalyzeResponse.items :=
       Some [{| Client.MealItem.name := "Celery";
                Client.MealItem.quantity := "1 stalk";
                Client.MealItem.kcal := (-5)%float;
                Client.MealItem.protein := 0%float;
                Client.MealItem.carbs := 1%float;
                Client.MealItem.fat := 0%float |}];
     Client.AnalyzeResponse.notes := None;
     Client.AnalyzeResponse.confidence := None;
     Client.AnalyzeResponse.total := Some (Macros (-5) 0 1 0) |}.

(** The page after the description is sent and [data] comes back. *)
Definition logging (data : Client.AnalyzeResponse.t) : Client.State :=
  fst (@Client.handleSubmit display (replying data) typed).

(** A request with a photo only, and one whose body is the JSON null. *)
Definition photo : value :=
  VObj [("imageBase64", VStr "data:image/png;base64,iVBORw0KGgo=")].
Definition photo_content : list Gateway.ContentPart :=
  [Gateway.TextPart ("Meal label: Meal" +:+ nl +:+ "User description: None");
   Gateway.ImageUrlPart (VStr "data:image/png;base64,iVBORw0KGgo=")].
Definition nothing : value := VObj [("mealLabel", VStr "Lunch")].

(** A completion cut short, which does not parse, and one with a null among
    its items. *)
Definition truncated : list Gateway.ContentPart -> Gateway.Completion :=
  fun _ => Gateway.Text (json_text "{'mealTitle':'Lun") None.
Definition holed : value := VObj [("items", VArr [rice; VNull])].
Definition holed_text : string :=
  json_text "{'items':[{'name':'Rice','quantity':'1 cup','kcal':200,'protein':4,'carbs':45,'fat':1},null]}".

(** A completion with a title, notes and a confidence. *)
Definition annotated : value :=
  VObj [("mealTitle", VStr "Rice bowl"); ("items", VArr [rice]);
        ("notes", VStr "portion guessed"); ("confidence", VNum 0.5)].
Definition annotated_text : string :=
  json_text "{'mealTitle':'Rice bowl','items':[{'name':'Rice','quantity':'1 cup','kcal':200,'protein':4,'carbs':45,'fat':1}],'notes':'portion guessed','confidence':0.5}".

(** A typed item, and a response with a total and one item. *)
Definition rice_item : Client.MealItem.t :=
  {| Client.MealItem.name := "Rice";
     Client.MealItem.quantity := "1 cup";
     Client.MealItem.kcal := 200%float;
     Client.MealItem.protein := 4%float;
     Client.MealItem.carbs := 45%float;
     Client.MealItem.fat := 1%float |}.
Definition rice_reply : Client.AnalyzeResponse.t :=
  {| Client.AnalyzeResponse.mealTitle := None;
     Client.AnalyzeResponse.items := Some [rice_item];
     Client.AnalyzeResponse.notes := None;
     Client.AnalyzeResponse.confidence := None;
     Client.AnalyzeResponse.total := Some (Macros 200 4 45 1) |}.

(** An item with a macro field that has no primitive value, and a
    completion with it. *)
Definition stubborn : value :=
  VObj [("name", VStr "Stew"); ("kcal", VObj [("toString", VNum 1)])].
Definition stubborn_reply : value := VObj [("items", VArr [stubborn])].
Definition stubborn_text : string :=
  json_text "{'items':[{'name':'Stew','kcal':{'toString':1}}]}".

(** A response whose total is present and is no well-formed breakdown: its
    kcal is negative, and it disagrees with the one item. *)
Definition odd_total_reply : Client.AnalyzeResponse.t :=
  {| Client.AnalyzeResponse.mealTitle := Some "Lunch";
     Client.AnalyzeResponse.items := Some [rice_item];
     Client.AnalyzeResponse.notes := None;
     Client.AnalyzeResponse.confidence := None;
     Client.AnalyzeResponse.total := Some (Macros (-5) 0 1 0) |}.

(** A response without a total, with one item. *)
Definition untotalled_reply : Client.AnalyzeResponse.t :=
  {| Client.AnalyzeResponse.mealTitle := Some "Lunch";
     Client.AnalyzeResponse.items := Some [rice_item];
     Client.AnalyzeResponse.notes := None;
     Client.AnalyzeResponse.confidence := None;
     Client.AnalyzeResponse.total := None |}.

(** A page whose storage holds a theme, and one whose storage holds
    something else. *)
Definition dark_page : Client.Page :=
  {| Client.dark_class := true; Client.stored_theme := Some "dark" |}.
Definition odd_page : Client.Page :=
  {| Client.dark_class := false; Client.stored_theme := Some "sepia" |}.

End Examples.

(** * Properties *)

(** ** Binary64 addition keeps non-negative numbers non-negative *)

Module NumFacts.
Import Num.

Lemma shr_1_nonneg mrs : (0 <= shr_m mrs)%Z -> (0 <= shr_m (shr_1 mrs))%Z.
Proof.
  destruct mrs as [m r s]; simpl.
  destruct m as [|p|p]; simpl; try lia; destruct p; simpl; lia.
Qed.

Lemma iter_pos_inv {A} (f : A -> A) (P : A -> Prop) :
  (forall a, P a -> P (f a)) -> forall p a, P a -> P (SpecFloat.iter_pos f p a).
Proof.
  intros Hf p; induction p as [p IH|p IH|]; intros a Ha; simpl; auto.
Qed.

Lemma shr_fexp_nonneg prec emax m e l :
  (0 <= m)%Z -> (0 <= shr_m (fst (shr_fexp prec emax m e l)))%Z.
Proof.
  intros Hm. unfold shr_fexp, shr.
  assert (H0 : (0 <= shr_m (shr_record_of_loc m l))%Z)
    by (destruct l as [|[]]; simpl; exact Hm).
  destruct (fexp prec emax (Zdigits2 m + e) - e)%Z; simpl; auto.
  apply (iter_pos_inv shr_1 (fun r => (0 <= shr_m r)%Z)); auto using shr_1_nonneg.
Qed.

Lemma round_nearest_even_nonneg m l :
  (0 <= m)%Z -> (0 <= round_nearest_even m l)%Z.
Proof.
  intros Hm; destruct l as [|[]]; simpl; try lia.
  destruct (Z.even m); lia.
Qed.

(** Rounding a non-negative mantissa gives a zero or a number of the sign
    asked for, never NaN. *)
Lemma binary_round_aux_sign prec emax sx m e l :
  (0 <= m)%Z ->
  sf_nonneg (binary_round_aux prec emax sx m e l) = negb sx
  \/ exists s, binary_round_aux prec emax sx m e l = S754_zero s.
Proof.
  intros Hm. unfold binary_round_aux.
  pose proof (shr_fexp_nonneg prec emax m e l Hm) as H1.
  destruct (shr_fexp prec emax m e l) as [mrs' e']; simpl in H1.
  pose proof (shr_fexp_nonneg prec emax _ e' loc_Exact
                (round_nearest_even_nonneg _ (loc_of_shr_record mrs') H1)) as H2.
  destruct (shr_fexp prec emax _ e' loc_Exact) as [mrs'' e'']; simpl in H2.
  destruct (shr_m mrs'') as [|p|p]; [right; eauto| |lia].
  left. destruct (Z.leb _ _); reflexivity.
Qed.

Lemma binary_round_nonneg prec emax m e :
  sf_nonneg (binary_round prec emax false m e) = true.
Proof.
  unfold binary_round.
  destruct (shl_align m e _) as [mz ez'].
  destruct (binary_round_aux_sign prec emax false (Zpos mz) ez' loc_Exact)
    as [E|[s E]]; [lia|exact E|rewrite E; reflexivity].
Qed.

Lemma SFadd_nonneg prec emax x y :
  sf_nonneg x = true -> sf_nonneg y = true ->
  sf_nonneg (SFadd prec emax x y) = true.
Proof.
  destruct x as [sx|sx| |sx mx ex], y as [sy|sy| |sy my ey]; simpl;
    try discriminate;
    try (destruct sx; try discriminate); try (destruct sy; try discriminate);
    auto.
  intros _ _.
  destruct (Z.add _ _) eqn:Hz; simpl in *; auto using binary_round_nonneg.
  lia.
Qed.

Lemma nonneg_spec x : nonneg x = sf_nonneg (Prim2SF x).
Proof.
  unfold nonneg. rewrite leb_spec.
  change (Prim2SF 0) with (S754_zero false).
  destruct (Prim2SF x) as [s|s| |s m e]; try destruct s; reflexivity.
Qed.

Lemma add_nonneg x y :
  nonneg x = true -> nonneg y = true -> nonneg (x + y) = true.
Proof.
  rewrite !nonneg_spec, add_spec. apply SFadd_nonneg.
Qed.

Lemma sum_from_nonneg l : forall acc,
  nonneg acc = true -> Forall (fun n => nonneg n = true) l ->
  nonneg (sum_from acc l) = true.
Proof.
  induction l as [|n l IH]; intros acc Hacc Hl; simpl; [exact Hacc|].
  inversion Hl; subst. apply IH; auto using add_nonneg.
Qed.

Lemma sum_nonneg l :
  Forall (fun n => nonneg n = true) l -> nonneg (sum l) = true.
Proof. apply sum_from_nonneg. reflexivity. Qed.

(** When no element is changed by [|| 0], the sum with it is the plain sum. *)
Lemma sum_or_zero {A} (f : A -> float) l :
  Forall (fun a => or_zero (f a) = f a) l ->
  sum (map (fun a => or_zero (f a)) l) = sum (map f l).
Proof.
  intros Hl. f_equal. induction Hl; simpl; congruence.
Qed.

End NumFacts.

(** ** The gateway *)

Module GatewayFacts.
Import JS Gateway.

Section WithEngine.
Context `{Engine}.

Lemma coerced_counted item k n : coerced item k = Some n -> counted k item = n.
Proof.
  unfold coerced, counted. intros E.
  destruct (get item k) as [v|]; simpl in *; [|discriminate].
  destruct (ToNumber v) as [m|]; simpl in *; congruence.
Qed.

Lemma add_item_inv acc item acc' :
  add_item acc item = Some acc' ->
  acc' = Macros (kcal acc + counted "kcal" item)
                (protein acc + counted "protein" item)
                (carbs acc + counted "carbs" item)
                (fat acc + counted "fat" item).
Proof.
  unfold add_item. intros E.
  destruct (coerced item "kcal") as [k|] eqn:Ek; simpl in E; [|discriminate].
  destruct (coerced item "protein") as [p|] eqn:Ep; simpl in E; [|discriminate].
  destruct (coerced item "carbs") as [c|] eqn:Ec; simpl in E; [|discriminate].
  destruct (coerced item "fat") as [f|] eqn:Ef; simpl in E; [|discriminate].
  rewrite (coerced_counted _ _ _ Ek), (coerced_counted _ _ _ Ep),
    (coerced_counted _ _ _ Ec), (coerced_counted _ _ _ Ef).
  congruence.
Qed.

(** The reducer with its record accumulator computes four independent
    left-to-right sums. *)
Lemma reduce_sums l : forall acc r,
  reduce l acc = Some r ->
  r = Macros (Num.sum_from (kcal acc) (map (counted "kcal") l))
             (Num.sum_from (protein acc) (map (counted "protein") l))
             (Num.sum_from (carbs acc) (map (counted "carbs") l))
             (Num.sum_from (fat acc) (map (counted "fat") l)).
Proof.
  induction l as [|item rest IH]; intros acc r E; simpl in E.
  - destruct acc; simpl; congruence.
  - destruct (add_item acc item) as [acc'|] eqn:Ea; simpl in E; [|discriminate].
    apply add_item_inv in Ea. rewrite (IH _ _ E), Ea. reflexivity.
Qed.

(** The reducer fails only where reading or coercing a field throws. *)
Lemma reduce_total l : forall acc,
  Forall (fun item => forall k, In k ["kcal"; "protein"; "carbs"; "fat"] ->
                                 is_Some (coerced item k)) l ->
  is_Some (reduce l acc).
Proof.
  induction l as [|item rest IH]; intros acc Hl; simpl; [eauto|].
  inversion Hl as [|? ? Hi Hrest]; subst.
  unfold add_item.
  destruct (Hi "kcal") as [k ->]; [simpl; auto|].
  destruct (Hi "protein") as [p ->]; [simpl; auto|].
  destruct (Hi "carbs") as [c ->]; [simpl; auto|].
  destruct (Hi "fat") as [f ->]; [simpl; auto 6|].
  simpl. apply IH, Hrest.
Qed.

Lemma normalize_inv mealLabel raw parsed est :
  normalize mealLabel raw parsed = Some est ->
  exists parsed_items,
    get parsed "items" = Some parsed_items
    /\ items est = items_of parsed_items
    /\ reduce (items est) no_macros = Some (total est).
Proof.
  unfold normalize. intros E.
  destruct (get parsed "items") as [pi|]; simpl in E; [|discriminate].
  destruct (reduce (items_of pi) no_macros) as [t|] eqn:Er; simpl in E; [|discriminate].
  destruct (get parsed "mealTitle"); simpl in E; [|discriminate].
  destruct (get parsed "notes"); simpl in E; [|discriminate].
  destruct (get parsed "confidence"); simpl in E; [|discriminate].
  injection E as <-. simpl. eauto.
Qed.

(** A success response comes from a completion that parsed, through
    [normalize]. *)
Lemma POST_ok_inv key req_json create est evs :
  POST key req_json create = (Responds (Ok est), evs) ->
  exists payload mealLabel userContent raw parsed,
    req_json = Some payload
    /\ get payload "mealLabel" = Some mealLabel
    /\ create userContent = Text raw (Some parsed)
    /\ normalize mealLabel raw parsed = Some est.
Proof.
  unfold POST. destruct (key_missing key); [discriminate|].
  destruct req_json as [payload|]; [|discriminate].
  destruct (get payload "message") as [message|]; [|discriminate].
  destruct (get payload "imageBase64") as [imageBase64|]; [|discriminate].
  destruct (get payload "mealLabel") as [mealLabel|] eqn:El; [|discriminate].
  destruct (negb (ToBoolean message) && negb (ToBoolean imageBase64)); [discriminate|].
  unfold analyze, lift, emit, bind, throw.
  destruct (user_text mealLabel message) as [text|]; [|discriminate].
  destruct (create (user_content text imageBase64)) as [| |raw parsed] eqn:Ec;
    try discriminate.
  destruct (String.eqb raw ""); [discriminate|].
  destruct parsed as [parsed|]; [|discriminate].
  destruct (normalize mealLabel raw parsed) as [e|] eqn:En; [|discriminate].
  simpl. intros E. injection E as <- <-.
  exists payload, mealLabel, (user_content text imageBase64), raw, parsed.
  repeat split; assumption || reflexivity.
Qed.

Lemma POST_total key req_json create est evs :
  POST key req_json create = (Responds (Ok est), evs) ->
  total est = sum_of_items (items est).
Proof.
  intros E. apply POST_ok_inv in E as (? & ml & ? & raw & parsed & _ & _ & _ & En).
  apply normalize_inv in En as (pi & _ & _ & Er).
  apply reduce_sums in Er. exact Er.
Qed.

(** An object with a total of its own gives the same answer as without. *)
Lemma normalize_ignores_total mealLabel raw props t :
  normalize mealLabel raw (VObj (("total", t) :: props))
  = normalize mealLabel raw (VObj props).
Proof. reflexivity. Qed.

(** Nothing throws in [normalize] when the completion is not [null] and
    reading and coercing the macro fields of its items does not throw. *)
Lemma normalize_total mealLabel raw parsed parsed_items :
  get parsed "items" = Some parsed_items ->
  Forall (fun item => forall k, In k ["kcal"; "protein"; "carbs"; "fat"] ->
                                 is_Some (coerced item k))
         (items_of parsed_items) ->
  exists est, normalize mealLabel raw parsed = Some est
              /\ items est = items_of parsed_items.
Proof.
  intros Ei Hl. unfold normalize. rewrite Ei. simpl.
  destruct (reduce_total _ no_macros Hl) as [t ->]. simpl.
  destruct parsed; try discriminate; simpl; eauto.
Qed.

(** The property of an item that is not null or undefined is the field
    that the specification sees. *)
Lemma get_field_of item k :
  item <> VNull -> item <> VUndefined -> get item k = Some (field_of k item).
Proof.
  destruct item; simpl; try congruence. intros _ _.
  destruct (own k props); reflexivity.
Qed.

Lemma or_zero_amount n :
  Num.or_zero n = (if is_nan n || is_zero n then 0%float else n).
Proof.
  unfold Num.or_zero, Num.truthy. destruct (is_zero n), (is_nan n); reflexivity.
Qed.

(** The code counts a simple field for its amount, and never throws on
    one. *)
Lemma coerced_amount item k :
  item <> VNull -> item <> VUndefined ->
  simple (field_of k item) = true ->
  coerced item k = Some (amount (field_of k item)).
Proof.
  intros Hn Hu Hs. unfold coerced. rewrite (get_field_of _ _ Hn Hu). simpl.
  destruct (field_of k item) as [| |[]|n|s0|l|q]; simpl in *;
    try discriminate; try reflexivity.
  - rewrite or_zero_amount. reflexivity.
  - rewrite or_zero_amount. reflexivity.
  - destruct (own "toString" q); [discriminate|reflexivity].
Qed.

Lemma countable_inv item :
  countable item = true ->
  item <> VNull /\ item <> VUndefined
  /\ simple (field_of "kcal" item) = true
  /\ simple (field_of "protein" item) = true
  /\ simple (field_of "carbs" item) = true
  /\ simple (field_of "fat" item) = true.
Proof.
  intros Hc.
  assert (Hf : simple (field_of "kcal" item) && simple (field_of "protein" item)
               && simple (field_of "carbs" item) && simple (field_of "fat" item)
               = true)
    by (destruct item; simpl in Hc; try discriminate; exact Hc).
  rewrite !andb_true_iff in Hf. destruct Hf as [[[? ?] ?] ?].
  repeat split; try assumption; intros ->; discriminate.
Qed.

(** On countable items the reducer never throws and adds the amounts. *)
Lemma reduce_amounts l : forall acc,
  forallb countable l = true ->
  reduce l acc
  = Some (Macros
            (Num.sum_from (kcal acc) (map (fun item => amount (field_of "kcal" item)) l))
            (Num.sum_from (protein acc) (map (fun item => amount (field_of "protein" item)) l))
            (Num.sum_from (carbs acc) (map (fun item => amount (field_of "carbs" item)) l))
            (Num.sum_from (fat acc) (map (fun item => amount (field_of "fat" item)) l))).
Proof.
  induction l as [|item rest IH]; intros acc Hl; simpl.
  - destruct acc; reflexivity.
  - simpl in Hl. apply andb_prop in Hl as [Hi Hrest].
    apply countable_inv in Hi as (Hn & Hu & Hk & Hp & Hc & Hf).
    unfold add_item.
    rewrite (coerced_amount _ _ Hn Hu Hk), (coerced_amount _ _ Hn Hu Hp),
      (coerced_amount _ _ Hn Hu Hc), (coerced_amount _ _ Hn Hu Hf).
    simpl. rewrite (IH _ Hrest). reflexivity.
Qed.

(** One item on which a macro field cannot be read or coerced ends the
    reduction. *)
Lemma reduce_thrown l : forall acc item k,
  In item l ->
  In k ["kcal"; "protein"; "carbs"; "fat"] ->
  coerced item k = None ->
  reduce l acc = None.
Proof.
  induction l as [|x rest IH]; intros acc item k Hin Hk Ec; [destruct Hin|].
  simpl. destruct (add_item acc x) as [acc'|] eqn:Ea; [|reflexivity]. simpl.
  destruct Hin as [->|Hin]; [|exact (IH _ _ _ Hin Hk Ec)].
  exfalso. unfold add_item in Ea.
  destruct (coerced item "kcal") eqn:E1; [|discriminate].
  destruct (coerced item "protein") eqn:E2; [|discriminate].
  destruct (coerced item "carbs") eqn:E3; [|discriminate].
  destruct (coerced item "fat") eqn:E4; [|discriminate].
  destruct Hk as [<-|[<-|[<-|[<-|[]]]]]; congruence.
Qed.

(** An item that makes the callback of the reducer throw: null or
    undefined, or with a macro field that is an object with a property
    toString of its own. *)
Lemma thrown_on item :
  (item = VNull \/ item = VUndefined
   \/ exists k q x,
       In k ["kcal"; "protein"; "carbs"; "fat"]
       /\ field_of k item = VObj q /\ own "toString" q = Some x) ->
  exists k, In k ["kcal"; "protein"; "carbs"; "fat"] /\ coerced item k = None.
Proof.
  intros [->|[->|(k & q & x & Hk & Ef & Et)]].
  - exists "kcal". split; [simpl; auto|reflexivity].
  - exists "kcal". split; [simpl; auto|reflexivity].
  - exists k. split; [exact Hk|].
    destruct item; simpl in Ef; try discriminate.
    unfold coerced. simpl. destruct (own k props); [|discriminate].
    subst. simpl. rewrite Et. reflexivity.
Qed.

(** A valid request whose completion parsed is answered by [normalize]. *)
Lemma POST_answered key payload m i l create text raw0 parsed :
  key_missing key = false ->
  get payload "message" = Some m ->
  get payload "imageBase64" = Some i ->
  get payload "mealLabel" = Some l ->
  ToBoolean m = true \/ ToBoolean i = true ->
  user_text l m = Some text ->
  create (user_content text i) = Text raw0 (Some parsed) ->
  raw0 <> "" ->
  POST key (Some payload) create
  = match normalize l raw0 parsed with
    | Some e =>
        (Responds (Ok e), [ReqJson; ChatCompletionsCreate (user_content text i)])
    | None =>
        (Responds UpstreamError,
         [ReqJson; ChatCompletionsCreate (user_content text i); ConsoleError])
    end.
Proof.
  intros Hk Em Ei El Hb Et Ec Hr.
  assert (Bf : negb (ToBoolean m) && negb (ToBoolean i) = false)
    by (destruct Hb as [-> | ->]; simpl; [reflexivity|apply andb_false_r]).
  unfold POST. rewrite Hk, Em, Ei, El, Bf.
  unfold analyze, lift, emit, bind. rewrite Et. simpl. rewrite Ec.
  destruct (String.eqb_spec raw0 ""); [contradiction|]. simpl.
  destruct (normalize l raw0 parsed); reflexivity.
Qed.

(** C1, as the code has it. For a valid request whose completion parsed to
    a value with items that are neither null nor undefined and whose macro
    fields are absent, scalars or plain objects, the gateway answers with
    an estimate whose total is the element-wise sum (kcal, protein, carbs,
    fat) over the items, where a number counts for itself, a text for the
    number read in it, true for 1, and a missing field, null, false, an
    object and anything that reads as NaN count for 0.  When an item is
    null or undefined, or a macro field is an object with a property
    toString of its own, the answer is the generic error instead.
    Whenever an estimate is returned, its total is the sum of what its
    items count for, a total supplied by the estimation service changes
    nothing, and the list of Rice (200, 4, 45, 1) and Chicken (165, 31, 0,
    4), sent with a total of 9999 kcal, gives the total 365, 35, 45, 5. *)
Theorem analyze_total_is_sum :
  (forall key payload m i l create text raw0 parsed parsed_items,
      key_missing key = false ->
      get payload "message" = Some m ->
      get payload "imageBase64" = Some i ->
      get payload "mealLabel" = Some l ->
      ToBoolean m = true \/ ToBoolean i = true ->
      user_text l m = Some text ->
      create (user_content text i) = Text raw0 (Some parsed) ->
      raw0 <> "" ->
      get parsed "items" = Some parsed_items ->
      (forallb countable (items_of parsed_items) = true ->
       exists est,
         POST key (Some payload) create
         = (Responds (Ok est),
            [ReqJson; ChatCompletionsCreate (user_content text i)])
         /\ items est = items_of parsed_items
         /\ total est = sum_of_amounts (items_of parsed_items))
      /\ (forall item,
             In item (items_of parsed_items) ->
             (item = VNull \/ item = VUndefined
              \/ exists k q x,
                  In k ["kcal"; "protein"; "carbs"; "fat"]
                  /\ field_of k item = VObj q /\ own "toString" q = Some x) ->
             POST key (Some payload) create
             = (Responds UpstreamError,
                [ReqJson; ChatCompletionsCreate (user_content text i);
                 ConsoleError])))
  /\ (forall item k,
         item <> VNull -> item <> VUndefined ->
         (simple (field_of k item) = true ->
          coerced item k = Some (amount (field_of k item)))
         /\ (forall elems printed,
                field_of k item = VArr elems ->
                ToString (VArr elems) = Some printed ->
                coerced item k = Some (Num.or_zero (StringToNumber printed))))
  /\ (forall key req_json create est evs,
         POST key req_json create = (Responds (Ok est), evs) ->
         total est = sum_of_items (items est))
  /\ (forall mealLabel raw props t,
         normalize mealLabel raw (VObj (("total", t) :: props))
         = normalize mealLabel raw (VObj props))
  /\ (exists est,
         POST (Some "sk-test") (Some Examples.described)
              (Examples.answering Examples.rice_and_chicken_text
                                  Examples.rice_and_chicken)
         = (Responds (Ok est),
            [ReqJson; ChatCompletionsCreate Examples.described_content])
         /\ items est = [Examples.rice; Examples.chicken]
         /\ total est = Macros 365 35 45 5).
Proof.
  split.
  { intros key payload m i l create text raw0 parsed pi
      Hk Em Ei El Hb Et Ec Hr Eitems.
    rewrite (POST_answered _ _ _ _ _ _ _ _ _ Hk Em Ei El Hb Et Ec Hr).
    unfold normalize. rewrite Eitems. simpl. split.
    - intros Hl. rewrite (reduce_amounts _ no_macros Hl). simpl.
      destruct parsed; try discriminate; simpl; eexists; repeat split.
    - intros item Hin Hbad.
      destruct (thrown_on item Hbad) as (k & Hk' & Ec').
      rewrite (reduce_thrown _ no_macros item k Hin Hk' Ec'). reflexivity. }
  split.
  { intros item k Hn Hu. split; [apply coerced_amount; assumption|].
    intros elems printed Ef Ep. unfold coerced.
    rewrite (get_field_of _ _ Hn Hu), Ef. simpl.
    simpl in Ep. rewrite Ep. reflexivity. }
  split; [exact POST_total|].
  split; [exact normalize_ignores_total|].
  eexists. split; [vm_compute; reflexivity|].
  split; reflexivity.
Qed.

(** C2, as the code has it. Whenever the gateway answers with an estimate,
    the items it returns are the elements of the parsed items field exactly
    as they were received when that field is a sequence, and the empty
    sequence otherwise; a completion whose items field is not a sequence
    still gets an estimate, with no item and a zero total.  The macro fields
    of the returned items are not coerced: the coercion, with 0 for a value
    that fails it, is applied only inside the total, which is the sum of
    C1. *)
Theorem returned_items_are_parsed_items :
  (forall key req_json create est evs,
      POST key req_json create = (Responds (Ok est), evs) ->
      exists userContent raw parsed parsed_items,
        create userContent = Text raw (Some parsed)
        /\ get parsed "items" = Some parsed_items
        /\ items est = (if isArray parsed_items then items_of parsed_items else [])
        /\ total est = sum_of_items (items est))
  /\ (forall l, items_of (VArr l) = l)
  /\ (forall mealLabel raw parsed parsed_items,
         get parsed "items" = Some parsed_items ->
         isArray parsed_items = false ->
         exists est, normalize mealLabel raw parsed = Some est
                     /\ items est = [] /\ total est = no_macros).
Proof.
  split.
  { intros key rq create est evs E.
    pose proof (POST_total _ _ _ _ _ E) as Et.
    apply POST_ok_inv in E as (? & ml & uc & raw & parsed & _ & _ & Ec & En).
    apply normalize_inv in En as (pi & Ei & Eitems & _).
    exists uc, raw, parsed, pi. repeat split; try assumption.
    rewrite Eitems. destruct pi; reflexivity. }
  split; [reflexivity|].
  intros ml raw parsed pi Ei Ha.
  assert (El : items_of pi = []) by (destruct pi; try reflexivity; discriminate).
  destruct (normalize_total ml raw parsed pi Ei) as (est & En & Eitems).
  { rewrite El. constructor. }
  exists est. split; [exact En|]. rewrite Eitems, El. split; [reflexivity|].
  apply normalize_inv in En as (? & _ & Eitems' & Er).
  rewrite Eitems, El in Er. simpl in Er. congruence.
Qed.

(** C7. While the credential is not configured, every request is answered
    with the configuration error, and no effect has happened by then: the
    body of the request has not been read, whatever it is. *)
Theorem missing_key_fails_before_parsing :
  forall key req_json create,
    key_missing key = true ->
    POST key req_json create = (Responds ConfigurationError, []).
Proof.
  intros key rq create Hk. unfold POST. rewrite Hk. reflexivity.
Qed.

End WithEngine.

Lemma rice_and_chicken_run :
  @POST Examples.engine (Some "sk-test") (Some Examples.described)
        (Examples.answering Examples.rice_and_chicken_text Examples.rice_and_chicken)
  = (Responds (Ok (Examples.estimate "Lunch" Examples.rice_and_chicken_text
                     [Examples.rice; Examples.chicken] (Macros 365 35 45 5))),
     [ReqJson; ChatCompletionsCreate Examples.described_content]).
Proof. vm_compute. reflexivity. Qed.

Lemma vague_run :
  @POST Examples.engine (Some "sk-test") (Some Examples.described)
        (Examples.answering Examples.vague_text Examples.vague)
  = (Responds (Ok (Examples.estimate "Meal" Examples.vague_text
                     [Examples.soup] (Macros 0 3 10 0))),
     [ReqJson; ChatCompletionsCreate Examples.described_content]).
Proof. vm_compute. reflexivity. Qed.

Lemma vague_text_not_empty : Examples.vague_text <> "".
Proof. vm_compute. discriminate. Qed.

Lemma analyze_total_is_sum_witness :
  exists est,
    @POST Examples.engine (Some "sk-test") (Some Examples.described)
          (Examples.answering Examples.vague_text Examples.vague)
    = (Responds (Ok est),
       [ReqJson;
        ChatCompletionsCreate
          (@user_content
             ("Meal label: Meal" +:+ nl +:+ "User description: rice and chicken")
             VUndefined)])
    /\ items est = [Examples.soup]
    /\ total est = @sum_of_amounts Examples.engine [Examples.soup].
Proof.
  exact (proj1 (proj1 (@analyze_total_is_sum Examples.engine)
                  (Some "sk-test") Examples.described
                  (VStr "rice and chicken") VUndefined VUndefined
                  (Examples.answering Examples.vague_text Examples.vague)
                  ("Meal label: Meal" +:+ nl +:+ "User description: rice and chicken")
                  Examples.vague_text Examples.vague (VArr [Examples.soup])
                  eq_refl eq_refl eq_refl eq_refl (or_introl eq_refl)
                  eq_refl eq_refl vague_text_not_empty eq_refl)
           eq_refl).
Defined.

(** A completion with a null among its items, and one with a macro field
    that is an object with a property toString of its own, get no total:
    the answer is the generic error with status 500. *)
Lemma null_item_is_answered_500 :
  @POST Examples.engine (Some "sk-test") (Some Examples.described)
        (Examples.answering Examples.holed_text Examples.holed)
  = (Responds UpstreamError,
     [ReqJson; ChatCompletionsCreate Examples.described_content; ConsoleError])
  /\ @POST Examples.engine (Some "sk-test") (Some Examples.described)
           (Examples.answering Examples.stubborn_text Examples.stubborn_reply)
     = (Responds UpstreamError,
        [ReqJson; ChatCompletionsCreate Examples.described_content; ConsoleError])
  /\ status UpstreamError = 500.
Proof. split; [|split]; vm_compute; reflexivity. Qed.

(** The soup of the example comes back with its kcal still the text it was
    and its fat still missing, in an estimate whose total counts both
    as 0: a returned item whose macro fields are not all present and
    numeric. *)
Lemma returned_item_keeps_text_and_gap :
  @POST Examples.engine (Some "sk-test") (Some Examples.described)
        (Examples.answering Examples.vague_text Examples.vague)
  = (Responds (Ok (Examples.estimate "Meal" Examples.vague_text
                     [Examples.soup] (Macros 0 3 10 0))),
     [ReqJson; ChatCompletionsCreate Examples.described_content])
  /\ get Examples.soup "kcal" = Some (VStr "lots")
  /\ get Examples.soup "fat" = Some VUndefined
  /\ forallb numeric_item [Examples.soup] = false.
Proof. split; [exact vague_run|]. repeat split; reflexivity. Qed.

Lemma returned_items_are_parsed_items_witness :
  (exists userContent raw parsed parsed_items,
      Examples.answering Examples.vague_text Examples.vague userContent
      = Text raw (Some parsed)
      /\ get parsed "items" = Some parsed_items
      /\ [Examples.soup]
         = (if isArray parsed_items then items_of parsed_items else [])
      /\ Macros 0 3 10 0 = @sum_of_items Examples.engine [Examples.soup])
  /\ (exists est,
         @normalize Examples.engine VUndefined Examples.no_list_text
                    Examples.no_list = Some est
         /\ items est = [] /\ total est = no_macros).
Proof.
  split.
  - exact (proj1 (@returned_items_are_parsed_items Examples.engine) _ _ _ _ _
             vague_run).
  - exact (proj2 (proj2 (@returned_items_are_parsed_items Examples.engine))
             VUndefined Examples.no_list_text Examples.no_list
             (VStr "none") eq_refl eq_refl).
Defined.

Lemma missing_key_fails_before_parsing_witness :
  key_missing None = true
  /\ @POST Examples.engine None None (fun _ => Rejected)
     = (Responds ConfigurationError, []).
Proof.
  split; [reflexivity|].
  exact (@missing_key_fails_before_parsing Examples.engine None None
           (fun _ => Rejected) eq_refl).
Defined.

End GatewayFacts.

(** ** The client *)

Module ClientFacts.
Import Client.

(** [computeTotals] with its record accumulator computes the four sums. *)
Lemma computeTotals_from items : forall acc,
  fold_left
    (fun acc item =>
       Macros (kcal acc + Num.or_zero (MealItem.kcal item))
              (protein acc + Num.or_zero (MealItem.protein item))
              (carbs acc + Num.or_zero (MealItem.carbs item))
              (fat acc + Num.or_zero (MealItem.fat item)))
    items acc
  = Macros
      (Num.sum_from (kcal acc) (map (fun i => Num.or_zero (MealItem.kcal i)) items))
      (Num.sum_from (protein acc) (map (fun i => Num.or_zero (MealItem.protein i)) items))
      (Num.sum_from (carbs acc) (map (fun i => Num.or_zero (MealItem.carbs i)) items))
      (Num.sum_from (fat acc) (map (fun i => Num.or_zero (MealItem.fat i)) items)).
Proof.
  induction items as [|item rest IH]; intros acc; simpl.
  - destruct acc; reflexivity.
  - rewrite IH. reflexivity.
Qed.

Lemma computeTotals_sum_of items : computeTotals items = sum_of items.
Proof. apply computeTotals_from. Qed.

Lemma empty_true s : empty s = true -> s = "".
Proof. unfold empty. apply String.eqb_eq. Qed.

Lemma absent_true i : absent i = true -> i = None \/ i = Some "".
Proof.
  destruct i as [u|]; simpl; [|auto].
  intros E. apply empty_true in E. subst. auto.
Qed.

(** The updater of the log adds the entry at the end of its date and leaves
    the other dates alone, whatever the log it is applied to. *)
Lemma append_entry_lookup date entry (prev : gmap string (list MealEntry.t)) :
  append_entry date entry prev !! date = Some (default [] (prev !! date) ++ [entry])
  /\ forall d, d ≠ date -> append_entry date entry prev !! d = prev !! d.
Proof.
  unfold append_entry. split.
  - apply lookup_insert_eq.
  - intros d Hd. apply lookup_insert_ne. congruence.
Qed.

Section WithDisplay.
Context `{Display}.

Lemma handleSubmit_rejected w s :
  nothing_to_send s = true ->
  handleSubmit w s = (setError (Some ValidationError) s, []).
Proof. intros E. unfold handleSubmit. rewrite E. reflexivity. Qed.

Lemma handleSubmit_sent w s :
  nothing_to_send s = false ->
  handleSubmit w s
  = (finally (settle w s (fetch w (request w s)) (pending s)),
     [Fetch (request w s)]).
Proof. intros E. unfold handleSubmit. rewrite E. reflexivity. Qed.

(** The log after a run that got its data. *)
Lemma handleSubmit_logged w s data :
  nothing_to_send s = false ->
  fetch w (request w s) = OkData data ->
  historyByDate (fst (handleSubmit w s))
  = append_entry (selectedDate s) (entry_of w s data) (historyByDate s).
Proof.
  intros Ev Ef. rewrite (handleSubmit_sent _ _ Ev). simpl.
  unfold settle. rewrite Ef. reflexivity.
Qed.

(** The preview of a session is [null] or a data URL, never the empty
    string. *)
Lemma step_preview s s' :
  step s s' -> imagePreview s ≠ Some "" -> imagePreview s' ≠ Some "".
Proof.
  intros Hs Hi. destruct Hs as [d s|m s|f s|s|w s]; simpl; try exact Hi.
  - destruct f as [rest|]; simpl; [discriminate|exact Hi].
  - unfold handleSubmit. destruct (nothing_to_send s); simpl; [exact Hi|discriminate].
Qed.

Lemma reachable_preview s : reachable s -> imagePreview s ≠ Some "".
Proof.
  intros [today Hr].
  apply (rtc_ind_r (R := step) (fun s => imagePreview s ≠ Some "") (initial today));
    [discriminate| |exact Hr].
  intros s1 s2 _ Hs IH. exact (step_preview _ _ Hs IH).
Qed.

(** C3, as the code has it. After a run that got its data, the entry stored
    at the end of the selected date has for macros the total of the
    response as it is whenever the response has one, be it a well-formed
    breakdown or not, and only without one the element-wise sum over the items
    of the response (a NaN counting as 0; the plain sum when no number is
    NaN or the negative zero); with no total and an empty list of items the
    macros are 0, 0, 0, 0. *)
Theorem stored_macros_are_total_or_sum :
  forall w s data,
    nothing_to_send s = false ->
    fetch w (request w s) = OkData data ->
    exists entry,
      historyByDate (fst (handleSubmit w s)) !! selectedDate s
      = Some (todaysEntries s ++ [entry])
      /\ (forall t, AnalyzeResponse.total data = Some t ->
                    MealEntry.macros entry = t)
      /\ (AnalyzeResponse.total data = None ->
          MealEntry.macros entry
          = sum_of (default [] (AnalyzeResponse.items data)))
      /\ (AnalyzeResponse.total data = None ->
          Forall regular (default [] (AnalyzeResponse.items data)) ->
          MealEntry.macros entry
          = plain_sum_of (default [] (AnalyzeResponse.items data)))
      /\ (AnalyzeResponse.total data = None ->
          AnalyzeResponse.items data = Some [] ->
          MealEntry.macros entry = no_macros).
Proof.
  intros w s data Ev Ef. exists (entry_of w s data).
  rewrite (handleSubmit_logged _ _ _ Ev Ef).
  split; [apply append_entry_lookup|].
  unfold entry_of; simpl.
  split; [intros t ->; reflexivity|].
  split; [intros ->; simpl; apply computeTotals_sum_of|].
  split.
  - intros -> Hr; simpl. rewrite computeTotals_sum_of.
    unfold sum_of, plain_sum_of.
    rewrite !NumFacts.sum_or_zero; [reflexivity| | | |];
      (eapply Forall_impl; [exact Hr|]); intros i (? & ? & ? & ?); assumption.
  - intros -> ->. reflexivity.
Qed.

(** C4, as the code has it. No failing run creates an entry: the log is left
    exactly as it was, and the message of the error becomes the error
    state.  When the request fails (the network, or the gateway), the
    message of the user is in the transcript while the request is pending,
    whatever its outcome, and the message of the error is appended after
    it.  When the run is rejected for want of input, the transcript is left
    as it was and no request is made. *)
Theorem failure_leaves_log_unchanged :
  (forall w s,
      nothing_to_send s = true ->
      historyByDate (fst (handleSubmit w s)) = historyByDate s
      /\ error (fst (handleSubmit w s)) = Some ValidationError
      /\ chat (fst (handleSubmit w s)) = chat s
      /\ snd (handleSubmit w s) = [])
  /\ (forall w s e,
         nothing_to_send s = false ->
         attempt w s (fetch w (request w s)) = inl e ->
         historyByDate (fst (handleSubmit w s)) = historyByDate s
         /\ error (fst (handleSubmit w s)) = Some (message_of e)
         /\ chat (pending s)
            = chat s ++ [{| role := user;
                            text := or_string (Some (message s)) "(photo only)" |}]
         /\ chat (fst (handleSubmit w s))
            = chat (pending s) ++ [{| role := assistant; text := message_of e |}]).
Proof.
  split.
  - intros w s Ev. rewrite (handleSubmit_rejected _ _ Ev). simpl. auto.
  - intros w s e Ev Ea. rewrite (handleSubmit_sent _ _ Ev). simpl.
    unfold settle. rewrite Ea. simpl. auto.
Qed.

(** C6. A run with an empty description and no image (the preview is null,
    or empty) ends with the validation error as the error state and makes
    no request to the gateway. *)
Theorem empty_submit_is_rejected :
  forall w s,
    message s = "" ->
    imagePreview s = None \/ imagePreview s = Some "" ->
    error (fst (handleSubmit w s)) = Some ValidationError
    /\ snd (handleSubmit w s) = [].
Proof.
  intros w s Em Ei.
  rewrite handleSubmit_rejected; [simpl; auto|].
  unfold nothing_to_send. rewrite Em. destruct Ei as [-> | ->]; reflexivity.
Qed.

(** C8. The label depends on the hour alone, with half-open boundaries:
    before 11 Breakfast, from 11 and before 15 Lunch, from 15 and before 18
    Snack, from 18 Dinner; so 9, 13, 17 and 20 give the four labels in
    turn. *)
Theorem guessMealLabel_boundaries :
  forall hour : Z,
    ((hour < 11)%Z -> guessMealLabel hour = "Breakfast")
    /\ ((11 <= hour < 15)%Z -> guessMealLabel hour = "Lunch")
    /\ ((15 <= hour < 18)%Z -> guessMealLabel hour = "Snack")
    /\ ((18 <= hour)%Z -> guessMealLabel hour = "Dinner").
Proof.
  intros hour. unfold guessMealLabel.
  destruct (Z.ltb_spec hour 11), (Z.ltb_spec hour 15), (Z.ltb_spec hour 18);
    repeat split; intros; (reflexivity || lia).
Qed.

(** C9. After a run that got its data, the selected date holds its former
    entries in their order followed by the new entry, and every other date
    holds what it held; the updater does the same to whatever log it is
    applied to. *)
Theorem append_preserves_log :
  forall w s data,
    nothing_to_send s = false ->
    fetch w (request w s) = OkData data ->
    historyByDate (fst (handleSubmit w s)) !! selectedDate s
    = Some (todaysEntries s ++ [entry_of w s data])
    /\ (forall d, d ≠ selectedDate s ->
                  historyByDate (fst (handleSubmit w s)) !! d
                  = historyByDate s !! d)
    /\ (forall prev : gmap string (list MealEntry.t),
           append_entry (selectedDate s) (entry_of w s data) prev
             !! selectedDate s
           = Some (default [] (prev !! selectedDate s) ++ [entry_of w s data])
           /\ forall d, d ≠ selectedDate s ->
                        append_entry (selectedDate s) (entry_of w s data) prev !! d
                        = prev !! d).
Proof.
  intros w s data Ev Ef. rewrite (handleSubmit_logged _ _ _ Ev Ef).
  split; [apply append_entry_lookup|].
  split; [apply append_entry_lookup|].
  intros prev. apply append_entry_lookup.
Qed.

(** C10. After every run of a session, the one that is rejected, the one
    whose request fails and the one that succeeds, the description is the
    empty string and the preview is null. *)
Theorem draft_is_reset :
  forall w s,
    reachable s ->
    message (fst (handleSubmit w s)) = ""
    /\ imagePreview (fst (handleSubmit w s)) = None.
Proof.
  intros w s Hr. apply reachable_preview in Hr.
  unfold handleSubmit. destruct (nothing_to_send s) eqn:Ev; simpl; [|auto].
  unfold nothing_to_send in Ev. apply andb_prop in Ev as [Em Ei].
  apply empty_true in Em. apply absent_true in Ei as [Ei|Ei]; [auto|contradiction].
Qed.

End WithDisplay.

Lemma typed_has_input : nothing_to_send Examples.typed = false.
Proof. reflexivity. Qed.

Lemma fresh_has_no_input : nothing_to_send Examples.fresh = true.
Proof. reflexivity. Qed.

Lemma typed_is_reachable : @reachable Examples.display Examples.typed.
Proof. exists "2025-01-15". apply rtc_once. apply step_type. Qed.

Lemma stored_macros_are_total_or_sum_witness :
  (exists entry,
      historyByDate (fst (@handleSubmit Examples.display
                            (Examples.replying Examples.empty_reply)
                            Examples.typed))
        !! selectedDate Examples.typed
      = Some (todaysEntries Examples.typed ++ [entry])
      /\ MealEntry.macros entry = no_macros)
  /\ (exists entry,
         historyByDate (fst (@handleSubmit Examples.display
                               (Examples.replying Examples.rice_reply)
                               Examples.typed))
           !! selectedDate Examples.typed
         = Some (todaysEntries Examples.typed ++ [entry])
         /\ MealEntry.macros entry = Macros 200 4 45 1)
  /\ (exists entry,
         historyByDate (fst (@handleSubmit Examples.display
                               (Examples.replying Examples.untotalled_reply)
                               Examples.typed))
           !! selectedDate Examples.typed
         = Some (todaysEntries Examples.typed ++ [entry])
         /\ MealEntry.macros entry = sum_of [Examples.rice_item]).
Proof.
  split; [|split].
  - destruct (@stored_macros_are_total_or_sum Examples.display
                (Examples.replying Examples.empty_reply) Examples.typed
                Examples.empty_reply typed_has_input eq_refl)
      as (entry & Hl & _ & _ & _ & Hz).
    exists entry. split; [exact Hl|exact (Hz eq_refl eq_refl)].
  - destruct (@stored_macros_are_total_or_sum Examples.display
                (Examples.replying Examples.rice_reply) Examples.typed
                Examples.rice_reply typed_has_input eq_refl)
      as (entry & Hl & Ht & _).
    exists entry. split; [exact Hl|exact (Ht _ eq_refl)].
  - destruct (@stored_macros_are_total_or_sum Examples.display
                (Examples.replying Examples.untotalled_reply) Examples.typed
                Examples.untotalled_reply typed_has_input eq_refl)
      as (entry & Hl & _ & Hs & _).
    exists entry. split; [exact Hl|exact (Hs eq_refl)].
Defined.

(** A response whose total has -5 kcal, which is no well-formed breakdown,
    beside one item of 200 kcal: the entry stored has the total as it came,
    not the sum over the items. *)
Lemma odd_total_is_stored :
  historyByDate (Examples.logging Examples.odd_total_reply)
    !! selectedDate Examples.typed
  = Some [entry_of (Examples.replying Examples.odd_total_reply) Examples.typed
                   Examples.odd_total_reply]
  /\ MealEntry.macros
       (entry_of (Examples.replying Examples.odd_total_reply) Examples.typed
                 Examples.odd_total_reply)
     = Macros (-5) 0 1 0
  /\ nonneg_macros (Macros (-5) 0 1 0) = false
  /\ sum_of [Examples.rice_item] = Macros 200 4 45 1
  /\ Macros (-5) 0 1 0 <> Macros 200 4 45 1.
Proof.
  split.
  { unfold Examples.logging.
    rewrite (@handleSubmit_logged Examples.display
               (Examples.replying Examples.odd_total_reply) Examples.typed
               Examples.odd_total_reply typed_has_input eq_refl).
    apply (append_entry_lookup (selectedDate Examples.typed)). }
  split; [reflexivity|]. split; [reflexivity|]. split; [reflexivity|].
  intros E. apply (f_equal (fun m => Num.nonneg (kcal m))) in E.
  vm_compute in E. discriminate.
Qed.

(** On the first render a run is rejected: the error state is set, and the
    transcript still holds the greeting alone, with neither the message of
    the user nor that of the error. *)
Lemma rejected_run_leaves_transcript :
  nothing_to_send Examples.fresh = true
  /\ error (fst (@handleSubmit Examples.display Examples.offline Examples.fresh))
     = Some ValidationError
  /\ chat (fst (@handleSubmit Examples.display Examples.offline Examples.fresh))
     = [{| role := assistant; text := initialAssistantMessage |}].
Proof. repeat split; reflexivity. Qed.

Lemma failure_leaves_log_unchanged_witness :
  (historyByDate (fst (@handleSubmit Examples.display Examples.offline Examples.fresh))
   = historyByDate Examples.fresh
   /\ error (fst (@handleSubmit Examples.display Examples.offline Examples.fresh))
      = Some ValidationError
   /\ chat (fst (@handleSubmit Examples.display Examples.offline Examples.fresh))
      = chat Examples.fresh
   /\ snd (@handleSubmit Examples.display Examples.offline Examples.fresh) = [])
  /\ (historyByDate (fst (@handleSubmit Examples.display Examples.offline Examples.typed))
      = historyByDate Examples.typed
      /\ error (fst (@handleSubmit Examples.display Examples.offline Examples.typed))
         = Some "Failed to fetch"
      /\ chat (pending Examples.typed)
         = chat Examples.typed
           ++ [{| role := user; text := "two eggs on toast" |}]
      /\ chat (fst (@handleSubmit Examples.display Examples.offline Examples.typed))
         = chat (pending Examples.typed)
           ++ [{| role := assistant; text := "Failed to fetch" |}]).
Proof.
  split.
  - exact (proj1 (@failure_leaves_log_unchanged Examples.display)
             Examples.offline Examples.fresh fresh_has_no_input).
  - exact (proj2 (@failure_leaves_log_unchanged Examples.display)
             Examples.offline Examples.typed (Error "Failed to fetch")
             typed_has_input eq_refl).
Defined.

Lemma empty_submit_is_rejected_witness :
  error (fst (@handleSubmit Examples.display Examples.offline Examples.fresh))
  = Some ValidationError
  /\ snd (@handleSubmit Examples.display Examples.offline Examples.fresh) = [].
Proof.
  exact (@empty_submit_is_rejected Examples.display Examples.offline
           Examples.fresh eq_refl (or_introl eq_refl)).
Defined.

Lemma guessMealLabel_boundaries_witness :
  guessMealLabel 9 = "Breakfast" /\ guessMealLabel 13 = "Lunch"
  /\ guessMealLabel 17 = "Snack" /\ guessMealLabel 20 = "Dinner".
Proof.
  split; [apply (guessMealLabel_boundaries 9); lia|].
  split; [apply (guessMealLabel_boundaries 13); lia|].
  split; [apply (guessMealLabel_boundaries 17); lia|].
  apply (guessMealLabel_boundaries 20); lia.
Defined.

Lemma append_preserves_log_witness :
  historyByDate (Examples.logging Examples.empty_reply) !! selectedDate Examples.typed
  = Some (todaysEntries Examples.typed
          ++ [entry_of (Examples.replying Examples.empty_reply) Examples.typed
                       Examples.empty_reply]).
Proof.
  exact (proj1 (@append_preserves_log Examples.display
                  (Examples.replying Examples.empty_reply) Examples.typed
                  Examples.empty_reply typed_has_input eq_refl)).
Defined.

Lemma draft_is_reset_witness :
  message (fst (@handleSubmit Examples.display Examples.offline Examples.typed)) = ""
  /\ imagePreview (fst (@handleSubmit Examples.display Examples.offline Examples.typed))
     = None.
Proof.
  exact (@draft_is_reset Examples.display Examples.offline Examples.typed
           typed_is_reachable).
Defined.

End ClientFacts.

(** ** The sign of the totals *)

Module TotalsFacts.
Import JS Gateway Client.

(** The reducer of the day totals computes the four sums over the macros of
    the entries. *)
Lemma totals_from (entries : list MealEntry.t) : forall acc,
  fold_left
    (fun acc entry =>
       Macros (kcal acc + kcal (MealEntry.macros entry))
              (protein acc + protein (MealEntry.macros entry))
              (carbs acc + carbs (MealEntry.macros entry))
              (fat acc + fat (MealEntry.macros entry)))
    entries acc
  = Macros
      (Num.sum_from (kcal acc) (map (fun e => kcal (MealEntry.macros e)) entries))
      (Num.sum_from (protein acc) (map (fun e => protein (MealEntry.macros e)) entries))
      (Num.sum_from (carbs acc) (map (fun e => carbs (MealEntry.macros e)) entries))
      (Num.sum_from (fat acc) (map (fun e => fat (MealEntry.macros e)) entries)).
Proof.
  induction entries as [|entry rest IH]; intros acc; simpl.
  - destruct acc; reflexivity.
  - rewrite IH. reflexivity.
Qed.

Lemma nonneg_macros_true m :
  nonneg_macros m = true ->
  Num.nonneg (kcal m) = true /\ Num.nonneg (protein m) = true
  /\ Num.nonneg (carbs m) = true /\ Num.nonneg (fat m) = true.
Proof.
  unfold nonneg_macros. rewrite !andb_true_iff. tauto.
Qed.

(** The sum of parts that are all non-negative, field by field. *)
Lemma sums_nonneg {A} (part : A -> MacroBreakdown) (l : list A) :
  Forall (fun a => nonneg_macros (part a) = true) l ->
  nonneg_macros
    (Macros (Num.sum (map (fun a => kcal (part a)) l))
            (Num.sum (map (fun a => protein (part a)) l))
            (Num.sum (map (fun a => carbs (part a)) l))
            (Num.sum (map (fun a => fat (part a)) l))) = true.
Proof.
  intros Hl. unfold nonneg_macros; simpl.
  rewrite !andb_true_iff. repeat split;
    apply NumFacts.sum_nonneg, Forall_map;
    (eapply Forall_impl; [exact Hl|]);
    intros a Ha; apply nonneg_macros_true in Ha; tauto.
Qed.

(** C5, as the code has it. The total of the gateway is non-negative in its
    four fields whenever what every returned item counts for is
    non-negative, and the day totals of the client are non-negative
    whenever the macros of every entry of the selected date are. *)
Theorem totals_nonneg_when_parts_are `{Engine} :
  (forall key req_json create est evs,
      POST key req_json create = (Responds (Ok est), evs) ->
      Forall (fun item => nonneg_macros (counted_macros item) = true) (items est) ->
      nonneg_macros (total est) = true)
  /\ (forall s,
         Forall (fun e => nonneg_macros (MealEntry.macros e) = true)
                (todaysEntries s) ->
         nonneg_macros (totals s) = true).
Proof.
  split.
  - intros key rq create est evs E Hl.
    rewrite (GatewayFacts.POST_total _ _ _ _ _ E).
    exact (sums_nonneg counted_macros _ Hl).
  - intros s Hl. unfold totals. rewrite totals_from.
    exact (sums_nonneg MealEntry.macros _ Hl).
Qed.

Lemma negative_run :
  @POST Examples.engine (Some "sk-test") (Some Examples.described)
        (Examples.answering Examples.negative_text Examples.negative)
  = (Responds (Ok (Examples.estimate "Meal" Examples.negative_text
                     [Examples.celery] (Macros (-5) 0 1 0))),
     [ReqJson; ChatCompletionsCreate Examples.described_content]).
Proof. vm_compute. reflexivity. Qed.

(** A completion with -5 kcal for its one item gets the total -5 kcal, and
    a response with that total, once logged, gives day totals of -5 kcal. *)
Lemma negative_number_reaches_totals :
  @POST Examples.engine (Some "sk-test") (Some Examples.described)
        (Examples.answering Examples.negative_text Examples.negative)
  = (Responds (Ok (Examples.estimate "Meal" Examples.negative_text
                     [Examples.celery] (Macros (-5) 0 1 0))),
     [ReqJson; ChatCompletionsCreate Examples.described_content])
  /\ nonneg_macros (Macros (-5) 0 1 0) = false
  /\ totals (Examples.logging Examples.celery_reply) = Macros (-5) 0 1 0.
Proof.
  split; [exact negative_run|]. split; [reflexivity|]. vm_compute. reflexivity.
Qed.

Lemma totals_nonneg_when_parts_are_witness :
  nonneg_macros (Macros 365 35 45 5) = true
  /\ nonneg_macros (totals (Examples.logging Examples.empty_reply)) = true.
Proof.
  split.
  - refine (proj1 (@totals_nonneg_when_parts_are Examples.engine) _ _ _ _ _
              GatewayFacts.rice_and_chicken_run _).
    repeat constructor.
  - refine (proj2 (@totals_nonneg_when_parts_are Examples.engine)
              (Examples.logging Examples.empty_reply) _).
    vm_compute. repeat constructor.
Defined.

End TotalsFacts.

(** ** More on the gateway *)

Module GatewayExtras.
Import JS Gateway.

Section WithEngine.
Context `{Engine}.

(** A property read succeeds on everything but [undefined] and [null],
    whatever the name. *)
Lemma get_some v k x : get v k = Some x -> forall k', is_Some (get v k').
Proof. destruct v; simpl; try discriminate; eauto. Qed.

Lemma get_none v k : get v k = None -> v = VUndefined \/ v = VNull.
Proof. destruct v; simpl; try discriminate; auto. Qed.

(** The two ways of the [try] block: the text of the message cannot be
    built and nothing is sent, or the service is called once and its answer
    decides. *)
Lemma analyze_cases create m i l :
  (user_text l m = None /\ analyze create m i l = ([], None))
  \/ exists text,
      user_text l m = Some text
      /\ analyze create m i l
         = ([ChatCompletionsCreate (user_content text i)],
            match create (user_content text i) with
            | Text raw (Some p) =>
                if String.eqb raw "" then None else normalize l raw p
            | _ => None
            end).
Proof.
  unfold analyze, lift, emit, bind, throw.
  destruct (user_text l m) as [text|]; [right|left; auto].
  exists text. split; [reflexivity|]. simpl.
  destruct (create _) as [| |raw [p|]]; try reflexivity.
  - destruct (String.eqb raw ""); [reflexivity|].
    destruct (normalize l raw p); reflexivity.
  - destruct (String.eqb raw ""); reflexivity.
Qed.

(** The five ways of the handler. *)
Lemma POST_cases key req_json create :
  (key_missing key = true
   /\ POST key req_json create = (Responds ConfigurationError, []))
  \/ (key_missing key = false /\ req_json = None
      /\ POST key req_json create = (Responds InvalidPayload, [ReqJson]))
  \/ (key_missing key = false
      /\ (req_json = Some VUndefined \/ req_json = Some VNull)
      /\ POST key req_json create = (Uncaught, [ReqJson]))
  \/ (key_missing key = false
      /\ exists payload m i l,
          req_json = Some payload
          /\ get payload "message" = Some m
          /\ get payload "imageBase64" = Some i
          /\ get payload "mealLabel" = Some l
          /\ ToBoolean m = false /\ ToBoolean i = false
          /\ POST key req_json create = (Responds MissingInput, [ReqJson]))
  \/ (key_missing key = false
      /\ exists payload m i l,
          req_json = Some payload
          /\ get payload "message" = Some m
          /\ get payload "imageBase64" = Some i
          /\ get payload "mealLabel" = Some l
          /\ (ToBoolean m = true \/ ToBoolean i = true)
          /\ POST key req_json create
             = match analyze create m i l with
               | (t, Some e) => (Responds (Ok e), ReqJson :: t)
               | (t, None) => (Responds UpstreamError, ReqJson :: t ++ [ConsoleError])
               end).
Proof.
  unfold POST. destruct (key_missing key); [left; auto|right].
  destruct req_json as [payload|]; [right|left; auto].
  destruct (get payload "message") as [m|] eqn:Em.
  - destruct (get_some _ _ _ Em "imageBase64") as [i Ei].
    destruct (get_some _ _ _ Em "mealLabel") as [l El].
    rewrite Ei, El. right.
    destruct (ToBoolean m) eqn:Bm; simpl.
    + right. split; [reflexivity|]. exists payload, m, i, l. auto 10.
    + destruct (ToBoolean i) eqn:Bi; simpl.
      * right. split; [reflexivity|]. exists payload, m, i, l. auto 10.
      * left. split; [reflexivity|]. exists payload, m, i, l. auto 10.
  - left. split; [reflexivity|].
    apply get_none in Em as [-> | ->]; auto.
Qed.

Lemma coerced_nullish k : coerced VNull k = None /\ coerced VUndefined k = None.
Proof. split; reflexivity. Qed.

(** The reducer succeeds only on items whose four fields can be read and
    coerced. *)
Lemma reduce_some l : forall acc r,
  reduce l acc = Some r ->
  Forall (fun item => forall k, In k ["kcal"; "protein"; "carbs"; "fat"] ->
                                 is_Some (coerced item k)) l.
Proof.
  induction l as [|item rest IH]; intros acc r E; [constructor|].
  simpl in E. destruct (add_item acc item) as [acc'|] eqn:Ea; [|discriminate].
  simpl in E. constructor; [|exact (IH _ _ E)].
  unfold add_item in Ea.
  destruct (coerced item "kcal") eqn:Ek; [|discriminate].
  destruct (coerced item "protein") eqn:Ep; [|discriminate].
  destruct (coerced item "carbs") eqn:Ec; [|discriminate].
  destruct (coerced item "fat") eqn:Ef; [|discriminate].
  intros k [<-|[<-|[<-|[<-|[]]]]]; rewrite ?Ek, ?Ep, ?Ec, ?Ef; eauto.
Qed.

Lemma reduce_app l1 : forall l2 acc,
  reduce (l1 ++ l2) acc = (acc' ← reduce l1 acc; reduce l2 acc').
Proof.
  induction l1 as [|item rest IH]; intros l2 acc; simpl; [reflexivity|].
  destruct (add_item acc item) as [acc'|]; simpl; [apply IH|reflexivity].
Qed.

Lemma or_zero_not_nan n : is_nan (Num.or_zero n) = false.
Proof.
  unfold Num.or_zero, Num.truthy.
  destruct (is_zero n || is_nan n) eqn:E; simpl; [reflexivity|].
  apply orb_false_elim in E as [_ E]. exact E.
Qed.

(** The ways of a valid request: the text of the message cannot be built;
    or the service is called once, and either its answer parses to an
    estimate or the run ends in the generic error. *)
Lemma POST_valid key payload m i l create :
  key_missing key = false ->
  get payload "message" = Some m ->
  get payload "imageBase64" = Some i ->
  get payload "mealLabel" = Some l ->
  ToBoolean m = true \/ ToBoolean i = true ->
  (user_text l m = None
   /\ POST key (Some payload) create
      = (Responds UpstreamError, [ReqJson; ConsoleError]))
  \/ exists text,
      user_text l m = Some text
      /\ ((exists raw0 parsed est,
              create (user_content text i) = Text raw0 (Some parsed)
              /\ String.eqb raw0 "" = false
              /\ normalize l raw0 parsed = Some est
              /\ POST key (Some payload) create
                 = (Responds (Ok est),
                    [ReqJson; ChatCompletionsCreate (user_content text i)]))
          \/ POST key (Some payload) create
             = (Responds UpstreamError,
                [ReqJson; ChatCompletionsCreate (user_content text i);
                 ConsoleError])).
Proof.
  intros Hk Em Ei El Hb.
  assert (Bf : negb (ToBoolean m) && negb (ToBoolean i) = false)
    by (destruct Hb as [-> | ->]; simpl; [reflexivity|apply andb_false_r]).
  unfold POST. rewrite Hk, Em, Ei, El, Bf.
  destruct (analyze_cases create m i l) as [[Et Ea]|(text & Et & Ea)]; rewrite Ea.
  - left. auto.
  - right. exists text. split; [exact Et|].
    destruct (create (user_content text i)) as [| |raw0 [parsed|]] eqn:Ec;
      try (right; reflexivity).
    destruct (String.eqb raw0 "") eqn:Er; [right; reflexivity|].
    destruct (normalize l raw0 parsed) as [est|] eqn:En; [|right; reflexivity].
    left. exists raw0, parsed, est. auto.
Qed.

(** What [normalize] puts in the fields of the estimate. *)
Lemma normalize_fields mealLabel raw0 parsed est :
  normalize mealLabel raw0 parsed = Some est ->
  raw est = raw0
  /\ get parsed "notes" = Some (notes est)
  /\ exists title conf,
      get parsed "mealTitle" = Some title
      /\ get parsed "confidence" = Some conf
      /\ mealTitle est = nullish title (nullish mealLabel (VStr "Meal"))
      /\ confidence est = (if typeof_number conf then conf else VUndefined).
Proof.
  unfold normalize. intros E.
  destruct (get parsed "items") as [pi|]; simpl in E; [|discriminate].
  destruct (reduce (items_of pi) no_macros) as [t|]; simpl in E; [|discriminate].
  destruct (get parsed "mealTitle") as [title|]; simpl in E; [|discriminate].
  destruct (get parsed "notes") as [n|]; simpl in E; [|discriminate].
  destruct (get parsed "confidence") as [conf|]; simpl in E; [|discriminate].
  injection E as <-. simpl. eauto 10.
Qed.

(** A success response read back: the request was valid, the service was
    called once with the content built from it, and its answer parsed. *)
Lemma POST_ok_path key req_json create est evs :
  POST key req_json create = (Responds (Ok est), evs) ->
  exists payload m i l text raw0 parsed,
    req_json = Some payload
    /\ get payload "message" = Some m
    /\ get payload "imageBase64" = Some i
    /\ get payload "mealLabel" = Some l
    /\ user_text l m = Some text
    /\ create (user_content text i) = Text raw0 (Some parsed)
    /\ String.eqb raw0 "" = false
    /\ normalize l raw0 parsed = Some est
    /\ evs = [ReqJson; ChatCompletionsCreate (user_content text i)].
Proof.
  intros E.
  destruct (POST_cases key req_json create)
    as [[_ E']|[(_ & _ & E')|[(_ & _ & E')|[(_ & p & m & i & l & _ & _ & _ & _ & _ & _ & E')
       |(Hk & p & m & i & l & -> & Em & Ei & El & Hb & _)]]]];
    try (rewrite E' in E; discriminate).
  destruct (POST_valid key p m i l create Hk Em Ei El Hb)
    as [[_ E']|(text & Et & [(raw0 & parsed & est' & Ec & Er & En & E')|E'])];
    rewrite E' in E; try discriminate.
  injection E as <- <-.
  exists p, m, i, l, text, raw0, parsed. auto 12.
Qed.

(** X1. The estimation service is called only for a request that passed
    every check: the key is configured, the body decoded to a value with a
    description or an image, and the text of the message could be built;
    the call is then the only one of the run, after the body was read. *)
Theorem service_called_only_when_valid :
  forall key req_json create uc,
    In (ChatCompletionsCreate uc) (snd (POST key req_json create)) ->
    key_missing key = false
    /\ (snd (POST key req_json create) = [ReqJson; ChatCompletionsCreate uc]
        \/ snd (POST key req_json create)
           = [ReqJson; ChatCompletionsCreate uc; ConsoleError])
    /\ exists payload m i l text,
        req_json = Some payload
        /\ get payload "message" = Some m
        /\ get payload "imageBase64" = Some i
        /\ get payload "mealLabel" = Some l
        /\ (ToBoolean m = true \/ ToBoolean i = true)
        /\ user_text l m = Some text
        /\ uc = user_content text i.
Proof.
  intros key rq create uc Hin.
  destruct (POST_cases key rq create)
    as [[_ E]|[(_ & _ & E)|[(_ & _ & E)|[(_ & p & m & i & l & _ & _ & _ & _ & _ & _ & E)
       |(Hk & p & m & i & l & -> & Em & Ei & El & Hb & _)]]]];
    try (rewrite E in Hin; simpl in Hin; intuition discriminate).
  split; [exact Hk|].
  destruct (POST_valid key p m i l create Hk Em Ei El Hb)
    as [[_ E]|(text & Et & [(raw0 & parsed & est & _ & _ & _ & E)|E])];
    rewrite E in Hin |- *; simpl in Hin |- *.
  - intuition discriminate.
  - destruct Hin as [Hin|[Hin|[]]]; [discriminate|]. injection Hin as <-.
    split; [auto|]. exists p, m, i, l, text. auto 10.
  - destruct Hin as [Hin|[Hin|[Hin|[]]]]; try discriminate. injection Hin as <-.
    split; [auto|]. exists p, m, i, l, text. auto 10.
Qed.

(** X2. Every response is an estimate with status 200 or one of four fixed
    error responses, with status 400 or 500, whatever the service did; and
    the handler throws only when the decoded body is null. *)
Theorem responses_are_fixed :
  (forall key req_json create r evs,
      POST key req_json create = (Responds r, evs) ->
      (exists est, r = Ok est /\ status r = 200)
      \/ (In r fixed_errors /\ (status r = 400 \/ status r = 500)))
  /\ (forall key req_json create evs,
         POST key req_json create = (Uncaught, evs) ->
         key_missing key = false
         /\ (req_json = Some VUndefined \/ req_json = Some VNull)
         /\ evs = [ReqJson]).
Proof.
  split.
  - intros key rq create r evs E.
    destruct (POST_cases key rq create)
      as [[_ E']|[(_ & _ & E')|[(_ & _ & E')|[(_ & p & m & i & l & _ & _ & _ & _ & _ & _ & E')
         |(_ & p & m & i & l & _ & _ & _ & _ & _ & E')]]]];
      rewrite E' in E; try discriminate.
    + injection E as <- <-. right. simpl. auto.
    + injection E as <- <-. right. simpl. auto.
    + injection E as <- <-. right. simpl. auto.
    + destruct (analyze create m i l) as [t [e|]]; injection E as <- <-.
      * left. eauto.
      * right. simpl. auto 6.
  - intros key rq create evs E.
    destruct (POST_cases key rq create)
      as [[_ E']|[(_ & _ & E')|[(Hk & Hr & E')|[(_ & p & m & i & l & _ & _ & _ & _ & _ & _ & E')
         |(_ & p & m & i & l & _ & _ & _ & _ & _ & E')]]]];
      rewrite E' in E; try discriminate.
    + injection E as <-. auto.
    + destruct (analyze create m i l) as [t [e|]]; discriminate.
Qed.

(** X3. The answer is the missing-input error, after the body was read and
    nothing else, exactly when the key is configured and the body decoded
    to a value whose message and image are both falsy (absent, null, empty,
    zero or false). *)
Theorem missing_input_exactly :
  forall key req_json create,
    POST key req_json create = (Responds MissingInput, [ReqJson])
    <-> key_missing key = false
        /\ exists payload m i,
            req_json = Some payload
            /\ get payload "message" = Some m
            /\ get payload "imageBase64" = Some i
            /\ ToBoolean m = false /\ ToBoolean i = false.
Proof.
  intros key rq create. split.
  - intros E.
    destruct (POST_cases key rq create)
      as [[_ E']|[(_ & _ & E')|[(_ & _ & E')|[(Hk & p & m & i & l & Ep & Em & Ei & _ & Bm & Bi & _)
         |(_ & p & m & i & l & _ & _ & _ & _ & _ & E')]]]];
      try (rewrite E' in E; discriminate).
    + split; [exact Hk|]. exists p, m, i. auto.
    + rewrite E' in E. destruct (analyze create m i l) as [t [e|]]; discriminate.
  - intros (Hk & p & m & i & -> & Em & Ei & Bm & Bi).
    destruct (get_some _ _ _ Em "mealLabel") as [l El].
    unfold POST. rewrite Hk, Em, Ei, El, Bm, Bi. reflexivity.
Qed.

(** X4. Once a request is valid, every way the service stage goes wrong
    gets the same answer: when the text of the message cannot be built,
    when the call throws, when the content is null or empty, and when the
    content is no JSON, the response is the generic upstream error, and the
    last thing the run did was to log the cause. *)
Theorem upstream_failures_are_generic :
  forall key payload m i l create,
    key_missing key = false ->
    get payload "message" = Some m ->
    get payload "imageBase64" = Some i ->
    get payload "mealLabel" = Some l ->
    ToBoolean m = true \/ ToBoolean i = true ->
    (forall text, user_text l m = Some text ->
                  match create (user_content text i) with
                  | Text raw0 (Some _) => raw0 = ""
                  | _ => True
                  end) ->
    fst (POST key (Some payload) create) = Responds UpstreamError
    /\ last (snd (POST key (Some payload) create)) = Some ConsoleError.
Proof.
  intros key payload m i l create Hk Em Ei El Hb Hc.
  destruct (POST_valid key payload m i l create Hk Em Ei El Hb)
    as [[_ E]|(text & Et & [(raw0 & parsed & est & Ec & Er & _ & _)|E])];
    try (rewrite E; split; reflexivity).
  specialize (Hc text Et). rewrite Ec in Hc. subst raw0. discriminate.
Qed.

(** X5. An estimate never carries a null item: in every estimate returned,
    no item is null or undefined and the four macro fields of every item
    could be read and coerced; a completion with a null among its items
    gets no estimate. *)
Theorem estimates_have_no_null_item :
  (forall key req_json create est evs,
      POST key req_json create = (Responds (Ok est), evs) ->
      Forall (fun item =>
                item <> VNull /\ item <> VUndefined
                /\ forall k, In k ["kcal"; "protein"; "carbs"; "fat"] ->
                             is_Some (coerced item k))
             (items est))
  /\ (forall mealLabel raw0 parsed l,
         get parsed "items" = Some (VArr l) ->
         In VNull l ->
         normalize mealLabel raw0 parsed = None).
Proof.
  split.
  - intros key rq create est evs E.
    apply GatewayFacts.POST_ok_inv in E as (? & ? & ? & ? & ? & _ & _ & _ & En).
    apply GatewayFacts.normalize_inv in En as (? & _ & _ & Er).
    apply reduce_some in Er.
    eapply Forall_impl; [exact Er|]. intros item Hi.
    repeat split; [intros -> | intros -> | exact Hi];
      destruct (Hi "kcal") as [? Hc]; simpl; auto; discriminate.
  - intros ml raw0 parsed l Ei Hin. unfold normalize. rewrite Ei. simpl.
    destruct (reduce l no_macros) as [t|] eqn:Er; [|reflexivity].
    apply reduce_some in Er. rewrite Forall_forall in Er.
    destruct (Er VNull) with (k := "kcal") as [? Hc];
      [apply list_elem_of_In; exact Hin|simpl; auto|discriminate].
Qed.

(** X6. In every estimate returned, the title is never null or undefined:
    it is the title of the completion, else the label of the request, else
    the word Meal; the confidence is a number or is left out; the notes are
    those of the completion; and the raw text is the non-empty content that
    the service sent. *)
Theorem estimate_fields :
  forall key req_json create est evs,
    POST key req_json create = (Responds (Ok est), evs) ->
    mealTitle est <> VUndefined /\ mealTitle est <> VNull
    /\ (confidence est = VUndefined \/ exists n, confidence est = VNum n)
    /\ raw est <> ""
    /\ exists payload l userContent parsed title,
        req_json = Some payload
        /\ get payload "mealLabel" = Some l
        /\ create userContent = Text (raw est) (Some parsed)
        /\ get parsed "mealTitle" = Some title
        /\ mealTitle est = nullish title (nullish l (VStr "Meal"))
        /\ get parsed "notes" = Some (notes est).
Proof.
  intros key rq create est evs E.
  apply POST_ok_path in E
    as (p & m & i & l & text & raw0 & parsed & -> & _ & _ & El & _ & Ec & Er & En & _).
  apply normalize_fields in En as (Eraw & Enotes & title & conf & Et & _ & Emt & Econf).
  subst raw0.
  assert (Hmt : mealTitle est <> VUndefined /\ mealTitle est <> VNull)
    by (rewrite Emt; destruct title, l; simpl; split; discriminate).
  destruct Hmt as [H1 H2]. repeat split; try assumption.
  - rewrite Econf. destruct conf; simpl; eauto.
  - intros E0. rewrite E0 in Er. discriminate.
  - exists p, l, (user_content text i), parsed, title. auto 10.
Qed.

(** X7. The defaults of the message sent to the service: a request with a
    photo only and no label asks about the label Meal and the description
    None, with the image as second part; a request with a description and a
    label and no image asks with the one text part made of both. *)
Theorem message_defaults :
  (forall key payload m i create,
      key_missing key = false ->
      get payload "message" = Some m ->
      get payload "imageBase64" = Some i ->
      get payload "mealLabel" = Some VUndefined ->
      ToBoolean m = false -> ToBoolean i = true ->
      In (ChatCompletionsCreate
            [TextPart ("Meal label: Meal" +:+ nl +:+ "User description: None");
             ImageUrlPart i])
         (snd (POST key (Some payload) create)))
  /\ (forall key payload d i label create,
         key_missing key = false ->
         get payload "message" = Some (VStr d) ->
         get payload "imageBase64" = Some i ->
         get payload "mealLabel" = Some (VStr label) ->
         d <> "" -> ToBoolean i = false ->
         In (ChatCompletionsCreate
               [TextPart ("Meal label: " +:+ label +:+ nl
                          +:+ "User description: " +:+ d)])
            (snd (POST key (Some payload) create))).
Proof.
  split.
  - intros key payload m i create Hk Em Ei El Bm Bi.
    destruct (POST_valid key payload m i VUndefined create Hk Em Ei El
                (or_intror Bi))
      as [[Et _]|(text & Et & HE)];
      unfold user_text, or in Et; rewrite Bm in Et; simpl in Et;
      [discriminate|].
    injection Et as <-. unfold user_content in HE. rewrite Bi in HE.
    destruct HE as [(? & ? & ? & _ & _ & _ & E)|E]; rewrite E; simpl; auto.
  - intros key payload d i label create Hk Em Ei El Hd Bi.
    assert (Bd : ToBoolean (VStr d) = true).
    { simpl. destruct (String.eqb_spec d ""); [contradiction|reflexivity]. }
    destruct (POST_valid key payload (VStr d) i (VStr label) create Hk Em Ei El
                (or_introl Bd))
      as [[Et _]|(text & Et & HE)];
      unfold user_text, or in Et; rewrite Bd in Et; simpl in Et;
      [discriminate|].
    injection Et as <-. unfold user_content in HE. rewrite Bi in HE.
    destruct HE as [(? & ? & ? & _ & _ & _ & E)|E]; rewrite E; simpl; auto.
Qed.

(** X8. The reducer works through the list in order: the total of a list
    in two parts is the total of the second part started from that of the
    first, an exception in the first part ends the whole, and one more
    item at the end adds what that item counts for. *)
Theorem total_in_chunks :
  (forall l1 l2 acc,
      reduce (l1 ++ l2) acc = (acc' ← reduce l1 acc; reduce l2 acc'))
  /\ (forall l1 l2 acc, reduce l1 acc = None -> reduce (l1 ++ l2) acc = None)
  /\ (forall l item acc t,
         reduce l acc = Some t ->
         is_Some (add_item t item) ->
         reduce (l ++ [item]) acc
         = Some (add_macros t (counted_macros item))).
Proof.
  split; [exact reduce_app|].
  split.
  - intros l1 l2 acc E. rewrite reduce_app, E. reflexivity.
  - intros l item acc t E [t' Ea]. rewrite reduce_app, E. simpl. rewrite Ea. simpl.
    apply GatewayFacts.add_item_inv in Ea. rewrite Ea. reflexivity.
Qed.

(** X9. What a field adds to a total is never NaN: whenever a macro field
    can be read and coerced, the number added for it is 0 or a number that
    is not NaN. *)
Theorem summand_is_never_nan :
  forall item k n,
    coerced item k = Some n ->
    is_nan n = false.
Proof.
  intros item k n E. unfold coerced in E.
  destruct (get item k) as [v|]; simpl in E; [|discriminate].
  destruct (ToNumber v) as [x|]; simpl in E; [|discriminate].
  injection E as <-. apply or_zero_not_nan.
Qed.

End WithEngine.

Lemma rice_called :
  In (ChatCompletionsCreate Examples.described_content)
     (snd (@POST Examples.engine (Some "sk-test") (Some Examples.described)
             (Examples.answering Examples.rice_and_chicken_text
                                 Examples.rice_and_chicken))).
Proof. rewrite GatewayFacts.rice_and_chicken_run. simpl. auto. Qed.

Lemma annotated_run :
  @POST Examples.engine (Some "sk-test") (Some Examples.described)
        (Examples.answering Examples.annotated_text Examples.annotated)
  = (Responds (Ok {| mealTitle := VStr "Rice bowl";
                     items := [Examples.rice];
                     notes := VStr "portion guessed";
                     confidence := VNum 0.5;
                     total := Macros 200 4 45 1;
                     raw := Examples.annotated_text |}),
     [ReqJson; ChatCompletionsCreate Examples.described_content]).
Proof. vm_compute. reflexivity. Qed.

Lemma service_called_only_when_valid_witness :
  key_missing (Some "sk-test") = false
  /\ (snd (@POST Examples.engine (Some "sk-test") (Some Examples.described)
             (Examples.answering Examples.rice_and_chicken_text
                                 Examples.rice_and_chicken))
      = [ReqJson; ChatCompletionsCreate Examples.described_content]
      \/ snd (@POST Examples.engine (Some "sk-test") (Some Examples.described)
                (Examples.answering Examples.rice_and_chicken_text
                                    Examples.rice_and_chicken))
         = [ReqJson; ChatCompletionsCreate Examples.described_content;
            ConsoleError]).
Proof.
  destruct (@service_called_only_when_valid Examples.engine _ _ _ _ rice_called)
    as (Hk & Ht & _).
  exact (conj Hk Ht).
Defined.

Lemma responses_are_fixed_witness :
  (exists est,
      Ok (Examples.estimate "Lunch" Examples.rice_and_chicken_text
            [Examples.rice; Examples.chicken] (Macros 365 35 45 5)) = Ok est
      /\ status (Ok (Examples.estimate "Lunch" Examples.rice_and_chicken_text
                       [Examples.rice; Examples.chicken] (Macros 365 35 45 5)))
         = 200)
  \/ (In (Ok (Examples.estimate "Lunch" Examples.rice_and_chicken_text
                [Examples.rice; Examples.chicken] (Macros 365 35 45 5)))
         fixed_errors
      /\ (status (Ok (Examples.estimate "Lunch" Examples.rice_and_chicken_text
                        [Examples.rice; Examples.chicken] (Macros 365 35 45 5)))
          = 400
          \/ status (Ok (Examples.estimate "Lunch" Examples.rice_and_chicken_text
                           [Examples.rice; Examples.chicken] (Macros 365 35 45 5)))
             = 500)).
Proof.
  exact (proj1 (@responses_are_fixed Examples.engine) _ _ _ _ _
           GatewayFacts.rice_and_chicken_run).
Defined.

Lemma missing_input_exactly_witness :
  @POST Examples.engine (Some "sk-test") (Some Examples.nothing)
        (fun _ => Rejected)
  = (Responds MissingInput, [ReqJson]).
Proof.
  apply (proj2 (@missing_input_exactly Examples.engine (Some "sk-test")
                  (Some Examples.nothing) (fun _ => Rejected))).
  split; [reflexivity|].
  exists Examples.nothing, VUndefined, VUndefined. repeat split; reflexivity.
Defined.

Lemma upstream_failures_are_generic_witness :
  fst (@POST Examples.engine (Some "sk-test") (Some Examples.described)
         Examples.truncated) = Responds UpstreamError
  /\ last (snd (@POST Examples.engine (Some "sk-test") (Some Examples.described)
                  Examples.truncated)) = Some ConsoleError.
Proof.
  exact (@upstream_failures_are_generic Examples.engine (Some "sk-test")
           Examples.described (VStr "rice and chicken") VUndefined VUndefined
           Examples.truncated eq_refl eq_refl eq_refl eq_refl
           (or_introl eq_refl) (fun _ _ => I)).
Defined.

Lemma estimates_have_no_null_item_witness :
  @normalize Examples.engine VUndefined Examples.holed_text Examples.holed = None.
Proof.
  apply (proj2 (@estimates_have_no_null_item Examples.engine) VUndefined
           Examples.holed_text Examples.holed [Examples.rice; VNull]).
  - reflexivity.
  - simpl. auto.
Defined.

Lemma estimate_fields_witness :
  VStr "Rice bowl" <> VUndefined /\ VStr "Rice bowl" <> VNull
  /\ (VNum 0.5 = VUndefined \/ exists n, VNum 0.5 = VNum n)
  /\ Examples.annotated_text <> "".
Proof.
  destruct (@estimate_fields Examples.engine _ _ _ _ _ annotated_run)
    as (H1 & H2 & H3 & H4 & _).
  exact (conj H1 (conj H2 (conj H3 H4))).
Defined.

Lemma message_defaults_witness :
  In (ChatCompletionsCreate Examples.photo_content)
     (snd (@POST Examples.engine (Some "sk-test") (Some Examples.photo)
             (fun _ => Rejected))).
Proof.
  apply (proj1 (@message_defaults Examples.engine) (Some "sk-test")
           Examples.photo VUndefined
           (VStr "data:image/png;base64,iVBORw0KGgo=") (fun _ => Rejected));
    reflexivity.
Defined.

Lemma total_in_chunks_witness :
  @reduce Examples.engine ([Examples.rice] ++ [Examples.chicken]) no_macros
  = Some (add_macros (Macros 200 4 45 1)
            (@counted_macros Examples.engine Examples.chicken)).
Proof.
  apply (proj2 (proj2 (@total_in_chunks Examples.engine))).
  - reflexivity.
  - eexists. reflexivity.
Defined.

Lemma summand_is_never_nan_witness : is_nan 0%float = false.
Proof.
  exact (@summand_is_never_nan Examples.engine Examples.soup "kcal" 0%float
           eq_refl).
Defined.

End GatewayExtras.

(** ** More on the client *)

Module ClientExtras.
Import Client.

Lemma guessMealLabel_not_empty hour : guessMealLabel hour <> "".
Proof.
  unfold guessMealLabel.
  destruct (hour <? 11)%Z; [discriminate|].
  destruct (hour <? 15)%Z; [discriminate|].
  destruct (hour <? 18)%Z; discriminate.
Qed.

Lemma or_string_not_empty a b : b <> "" -> or_string a b <> "".
Proof.
  intros Hb. destruct a as [x|]; simpl; [|exact Hb].
  unfold empty. destruct (String.eqb_spec x ""); assumption.
Qed.

Lemma entry_of_titled w s data : MealEntry.title (entry_of w s data) <> "".
Proof. apply or_string_not_empty, guessMealLabel_not_empty. Qed.

(** The entries of a date after the updater: those before, and the new
    entry at the end when the date is that of the updater. *)
Lemma append_entry_entries date entry (prev : gmap string (list MealEntry.t)) d :
  default [] (append_entry date entry prev !! d)
  = default [] (prev !! d) ++ (if decide (d = date) then [entry] else []).
Proof.
  destruct (ClientFacts.append_entry_lookup date entry prev) as [Hd Hn].
  destruct (decide (d = date)) as [->|Hne].
  - rewrite Hd. reflexivity.
  - rewrite (Hn d Hne), app_nil_r. reflexivity.
Qed.

(** The day totals of a list with one more entry. *)
Lemma totals_snoc (l : list MealEntry.t) (e : MealEntry.t) acc :
  fold_left
    (fun acc entry =>
       Macros (kcal acc + kcal (MealEntry.macros entry))
              (protein acc + protein (MealEntry.macros entry))
              (carbs acc + carbs (MealEntry.macros entry))
              (fat acc + fat (MealEntry.macros entry)))
    (l ++ [e]) acc
  = add_macros
      (fold_left
         (fun acc entry =>
            Macros (kcal acc + kcal (MealEntry.macros entry))
                   (protein acc + protein (MealEntry.macros entry))
                   (carbs acc + carbs (MealEntry.macros entry))
                   (fat acc + fat (MealEntry.macros entry)))
         l acc)
      (MealEntry.macros e).
Proof. rewrite fold_left_app. reflexivity. Qed.

Lemma toggleTheme_twice s : toggleTheme (toggleTheme s) = s.
Proof. destruct s as [? ? ? ? ? ? ? []]; reflexivity. Qed.

Section WithDisplay.
Context `{Display}.

(** The three ways of a run: rejected, failed, logged. *)
Lemma handleSubmit_cases w s :
  (nothing_to_send s = true
   /\ handleSubmit w s = (setError (Some ValidationError) s, []))
  \/ (nothing_to_send s = false
      /\ exists e,
          attempt w s (fetch w (request w s)) = inl e
          /\ handleSubmit w s
             = (finally (setChat (say assistant (message_of e))
                           (setError (Some (message_of e)) (pending s))),
                [Fetch (request w s)]))
  \/ (nothing_to_send s = false
      /\ exists data,
          fetch w (request w s) = OkData data
          /\ handleSubmit w s
             = (finally
                  (setChat (say assistant (renderAssistantSummary (entry_of w s data)))
                     (setHistoryByDate
                        (append_entry (selectedDate s) (entry_of w s data))
                        (pending s))),
                [Fetch (request w s)])).
Proof.
  destruct (nothing_to_send s) eqn:Ev.
  - left. split; [reflexivity|]. apply ClientFacts.handleSubmit_rejected, Ev.
  - right. rewrite (ClientFacts.handleSubmit_sent _ _ Ev). unfold settle.
    destruct (fetch w (request w s)) as [e|err|e|data] eqn:Ef; simpl.
    + left. split; [reflexivity|]. eauto.
    + left. split; [reflexivity|]. eauto.
    + left. split; [reflexivity|]. eauto.
    + right. split; [reflexivity|]. eauto.
Qed.

Lemma handleSubmit_ok w s data :
  nothing_to_send s = false ->
  fetch w (request w s) = OkData data ->
  handleSubmit w s
  = (finally
       (setChat (say assistant (renderAssistantSummary (entry_of w s data)))
          (setHistoryByDate
             (append_entry (selectedDate s) (entry_of w s data))
             (pending s))),
     [Fetch (request w s)]).
Proof.
  intros Ev Ef. rewrite (ClientFacts.handleSubmit_sent _ _ Ev).
  unfold settle. rewrite Ef. reflexivity.
Qed.

Lemma handleSubmit_failed w s e :
  nothing_to_send s = false ->
  attempt w s (fetch w (request w s)) = inl e ->
  handleSubmit w s
  = (finally (setChat (say assistant (message_of e))
                (setError (Some (message_of e)) (pending s))),
     [Fetch (request w s)]).
Proof.
  intros Ev Ea. rewrite (ClientFacts.handleSubmit_sent _ _ Ev).
  unfold settle. rewrite Ea. reflexivity.
Qed.

(** What one step does to the log and to the transcript. *)
Lemma step_log s s' :
  step s s' ->
  historyByDate s' = historyByDate s
  \/ exists date entry,
      MealEntry.title entry <> ""
      /\ historyByDate s' = append_entry date entry (historyByDate s).
Proof.
  intros Hs. destruct Hs as [d s|m s|f s|s|w s]; simpl; auto.
  - destruct f; auto.
  - destruct (handleSubmit_cases w s)
      as [[_ E]|[(_ & e & _ & E)|(_ & data & _ & E)]]; rewrite E; simpl; auto.
    right. exists (selectedDate s), (entry_of w s data).
    split; [apply entry_of_titled|reflexivity].
Qed.

Lemma step_chat s s' : step s s' -> exists k, chat s' = chat s ++ k.
Proof.
  intros Hs. destruct Hs as [d s|m s|f s|s|w s]; simpl;
    try (exists []; rewrite app_nil_r; reflexivity).
  - destruct f; exists []; rewrite app_nil_r; reflexivity.
  - destruct (handleSubmit_cases w s)
      as [[_ E]|[(_ & e & _ & E)|(_ & data & _ & E)]]; rewrite E; simpl.
    + exists []. rewrite app_nil_r. reflexivity.
    + unfold say. rewrite <- app_assoc. eauto.
    + unfold say. rewrite <- app_assoc. eauto.
Qed.

(** X10. After a run that got its data, the day totals are the day totals
    of before with the macros of the new entry added, field by field. *)
Theorem totals_after_logging :
  forall w s data,
    nothing_to_send s = false ->
    fetch w (request w s) = OkData data ->
    totals (fst (handleSubmit w s))
    = add_macros (totals s) (MealEntry.macros (entry_of w s data)).
Proof.
  intros w s data Ev Ef. rewrite (handleSubmit_ok _ _ _ Ev Ef).
  unfold totals, todaysEntries. simpl.
  rewrite append_entry_entries. rewrite decide_True by reflexivity.
  apply totals_snoc.
Qed.

(** X11. A run that is rejected and a run whose request fails leave the day
    totals and the entries of every date as they were. *)
Theorem totals_unchanged_without_entry :
  forall w s,
    (nothing_to_send s = true
     \/ exists e, attempt w s (fetch w (request w s)) = inl e) ->
    totals (fst (handleSubmit w s)) = totals s
    /\ historyByDate (fst (handleSubmit w s)) = historyByDate s
    /\ selectedDate (fst (handleSubmit w s)) = selectedDate s.
Proof.
  intros w s [Ev|[e Ea]].
  - rewrite (ClientFacts.handleSubmit_rejected _ _ Ev). auto.
  - destruct (nothing_to_send s) eqn:Ev.
    + rewrite (ClientFacts.handleSubmit_rejected _ _ Ev). auto.
    + rewrite (handleSubmit_failed _ _ _ Ev Ea). auto.
Qed.

(** X12. The log only grows: through any sequence of actions on the page,
    the entries that a date held are still there, in the same order, at the
    start of what it holds afterwards. *)
Theorem log_is_append_only :
  forall s s',
    rtc step s s' ->
    forall d,
      default [] (historyByDate s !! d)
        `prefix_of` default [] (historyByDate s' !! d).
Proof.
  intros s s' Hr d. induction Hr as [s|s1 s2 s3 Hs _ IH]; [reflexivity|].
  etrans; [|exact IH].
  destruct (step_log _ _ Hs) as [->|(date & entry & _ & ->)]; [reflexivity|].
  rewrite append_entry_entries. eexists. reflexivity.
Qed.

(** X13. The transcript only grows: through any sequence of actions its
    former lines stay first, and in a session the greeting of the
    assistant stays the first line. *)
Theorem transcript_is_append_only :
  (forall s s', rtc step s s' -> chat s `prefix_of` chat s')
  /\ (forall s,
         reachable s ->
         exists rest,
           chat s = {| role := assistant; text := initialAssistantMessage |} :: rest).
Proof.
  assert (Hp : forall s s', rtc step s s' -> chat s `prefix_of` chat s').
  { intros s s' Hr. induction Hr as [s|s1 s2 s3 Hs _ IH]; [reflexivity|].
    etrans; [|exact IH]. destruct (step_chat _ _ Hs) as [k ->]. eexists. reflexivity. }
  split; [exact Hp|].
  intros s [today Hr]. destruct (Hp _ _ Hr) as [k ->]. simpl. eauto.
Qed.

(** X14. In a session, a date is in the log only with at least one entry,
    and every entry of the log has a title that is not empty. *)
Theorem logged_entries_are_titled :
  forall s,
    reachable s ->
    forall d l,
      historyByDate s !! d = Some l ->
      l <> [] /\ Forall (fun e => MealEntry.title e <> "") l.
Proof.
  intros s [today Hr].
  apply (rtc_ind_r (R := step)
           (fun s => forall d l, historyByDate s !! d = Some l ->
                                 l <> [] /\ Forall (fun e => MealEntry.title e <> "") l)
           (initial today)); [| |exact Hr].
  - intros d l E. simpl in E. rewrite lookup_empty in E. discriminate.
  - intros s1 s2 _ Hs IH d l E.
    destruct (step_log _ _ Hs) as [E'|(date & entry & Ht & E')]; rewrite E' in E;
      [exact (IH d l E)|].
    destruct (ClientFacts.append_entry_lookup date entry (historyByDate s1)) as [Hd Hn].
    destruct (decide (d = date)) as [->|Hne].
    + rewrite Hd in E. injection E as <-. split.
      * intros E0. apply app_eq_nil in E0 as [_ E0]. discriminate.
      * apply Forall_app. split; [|constructor; [exact Ht|constructor]].
        destruct (historyByDate s1 !! date) as [l0|] eqn:E0; simpl;
          [exact (proj2 (IH _ _ E0))|constructor].
    + rewrite (Hn d Hne) in E. exact (IH d l E).
Qed.

(** X15. A run that got its data clears the error of an earlier run, adds
    to the transcript the line of the user and then the summary of the
    entry, releases the sending flag, keeps the selected date, and made one
    request, whose body carries the description, the preview and the label
    of the hour. *)
Theorem successful_run_clears_error :
  forall w s data,
    nothing_to_send s = false ->
    fetch w (request w s) = OkData data ->
    error (fst (handleSubmit w s)) = None
    /\ chat (fst (handleSubmit w s))
       = chat s
         ++ [{| role := user; text := or_string (Some (message s)) "(photo only)" |};
             {| role := assistant;
                text := renderAssistantSummary (entry_of w s data) |}]
    /\ isSending (fst (handleSubmit w s)) = false
    /\ selectedDate (fst (handleSubmit w s)) = selectedDate s
    /\ snd (handleSubmit w s)
       = [Fetch {| AnalyzePayload.message := message s;
                   AnalyzePayload.imageBase64 := imagePreview s;
                   AnalyzePayload.mealLabel := guessMealLabel (hour_at_request w) |}].
Proof.
  intros w s data Ev Ef. rewrite (handleSubmit_ok _ _ _ Ev Ef). simpl.
  unfold say. rewrite <- app_assoc. auto.
Qed.

(** X16. When the gateway refuses, the error shown, which is also the last
    line of the transcript, is: the error of the body when that is a text
    that is not empty; the words AI analysis failed when the body does not
    decode, or decodes to an object without an error or with a falsy one;
    the message of the engine's TypeError when the body decodes to null, and
    when the error is an object with a property toString of its own.  When
    what is thrown is no Error, the error shown is a fixed sentence. *)
Theorem refusal_message :
  (forall w s err,
      nothing_to_send s = false ->
      fetch w (request w s) = NotOk err ->
      error (fst (handleSubmit w s)) = Some (message_of (refusal w err))
      /\ last (chat (fst (handleSubmit w s)))
         = Some {| role := assistant; text := message_of (refusal w err) |}
      /\ (err = Undecoded -> message_of (refusal w err) = "AI analysis failed")
      /\ (err = Decoded JS.VNull ->
          message_of (refusal w err) = null_read_message w)
      /\ (forall props m,
             err = Decoded (JS.VObj props) ->
             JS.own "error" props = Some (JS.VStr m) -> m <> "" ->
             message_of (refusal w err) = m)
      /\ (forall props,
             err = Decoded (JS.VObj props) ->
             (JS.own "error" props = None
              \/ exists e, JS.own "error" props = Some e
                           /\ JS.ToBoolean e = false) ->
             message_of (refusal w err) = "AI analysis failed")
      /\ (forall props q x,
             err = Decoded (JS.VObj props) ->
             JS.own "error" props = Some (JS.VObj q) ->
             JS.own "toString" q = Some x ->
             message_of (refusal w err) = not_primitive_message w))
  /\ (forall w s,
         nothing_to_send s = false ->
         (fetch w (request w s) = FetchRejects NotAnError
          \/ fetch w (request w s) = OkRejects NotAnError) ->
         error (fst (handleSubmit w s)) = Some "Something went wrong with OpenAI."
         /\ last (chat (fst (handleSubmit w s)))
            = Some {| role := assistant;
                      text := "Something went wrong with OpenAI." |}).
Proof.
  split.
  - intros w s err Ev Ef.
    assert (Ea : attempt w s (fetch w (request w s)) = inl (refusal w err))
      by (rewrite Ef; reflexivity).
    rewrite (handleSubmit_failed _ _ _ Ev Ea). simpl.
    split; [reflexivity|]. split; [unfold say; apply last_snoc|].
    split; [intros ->; reflexivity|].
    split; [intros ->; reflexivity|].
    split; [|split].
    + intros props m -> Eo Hm. unfold refusal. simpl. rewrite Eo. simpl.
      unfold JS.or. simpl.
      destruct (String.eqb_spec m ""); [contradiction|reflexivity].
    + intros props -> [Eo|(e & Eo & Be)]; unfold refusal; simpl; rewrite Eo; simpl;
        [reflexivity|]. unfold JS.or. rewrite Be. reflexivity.
    + intros props q x -> Eo Eq. unfold refusal. simpl. rewrite Eo. simpl.
      unfold JS.or. simpl. rewrite Eq. reflexivity.
  - intros w s Ev Ef.
    assert (Ea : attempt w s (fetch w (request w s)) = inl NotAnError)
      by (destruct Ef as [-> | ->]; reflexivity).
    rewrite (handleSubmit_failed _ _ _ Ev Ea). simpl.
    split; [reflexivity|]. unfold say. apply last_snoc.
Qed.

(** X17. A second run right after a run that made its request is rejected:
    the draft was cleared, so no second request is made and the log stays
    as the first run left it. *)
Theorem second_click_is_rejected :
  forall w w' s,
    nothing_to_send s = false ->
    snd (handleSubmit w' (fst (handleSubmit w s))) = []
    /\ error (fst (handleSubmit w' (fst (handleSubmit w s)))) = Some ValidationError
    /\ historyByDate (fst (handleSubmit w' (fst (handleSubmit w s))))
       = historyByDate (fst (handleSubmit w s)).
Proof.
  intros w w' s Ev.
  assert (E1 : nothing_to_send (fst (handleSubmit w s)) = true)
    by (rewrite (ClientFacts.handleSubmit_sent _ _ Ev); reflexivity).
  rewrite (ClientFacts.handleSubmit_rejected w' _ E1). auto.
Qed.

(** X18. A photo alone can be sent: once a file is picked on a page with an
    empty description, the run is not rejected, its one request carries the
    empty description and the data URL of the file, the line of the user in
    the transcript reads (photo only), and the entry made of the reply
    keeps the data URL as its image. *)
Theorem photo_only_submission :
  forall w s rest,
    message s = "" ->
    nothing_to_send (handleFileChange (Some rest) s) = false
    /\ snd (handleSubmit w (handleFileChange (Some rest) s))
       = [Fetch {| AnalyzePayload.message := "";
                   AnalyzePayload.imageBase64 := Some ("data:" +:+ rest);
                   AnalyzePayload.mealLabel := guessMealLabel (hour_at_request w) |}]
    /\ chat (pending (handleFileChange (Some rest) s))
       = chat s ++ [{| role := user; text := "(photo only)" |}]
    /\ (forall data,
           fetch w (request w (handleFileChange (Some rest) s)) = OkData data ->
           exists entry,
             historyByDate (fst (handleSubmit w (handleFileChange (Some rest) s)))
               !! selectedDate s
             = Some (todaysEntries s ++ [entry])
             /\ MealEntry.image entry = Some ("data:" +:+ rest)).
Proof.
  intros w s rest Em.
  assert (Ev : nothing_to_send (handleFileChange (Some rest) s) = false).
  { unfold nothing_to_send. simpl. apply andb_false_r. }
  split; [exact Ev|].
  split.
  { rewrite (ClientFacts.handleSubmit_sent _ _ Ev). simpl.
    unfold request. simpl. rewrite Em. reflexivity. }
  split.
  { simpl. rewrite Em. reflexivity. }
  intros data Ef.
  exists (entry_of w (handleFileChange (Some rest) s) data).
  rewrite (handleSubmit_ok _ _ _ Ev Ef). simpl.
  split; [|reflexivity].
  apply (ClientFacts.append_entry_lookup (selectedDate s)).
Qed.

(** X20. An entry is filed under the date selected when it was sent: after
    a run that got its data, another date shows the entries it had, a date
    without entries shows zero totals, and coming back to the date of the
    run shows its former entries followed by the new one. *)
Theorem entries_filed_under_date :
  forall w s data d,
    nothing_to_send s = false ->
    fetch w (request w s) = OkData data ->
    d <> selectedDate s ->
    todaysEntries (setSelectedDate d (fst (handleSubmit w s)))
    = default [] (historyByDate s !! d)
    /\ (historyByDate s !! d = None ->
        totals (setSelectedDate d (fst (handleSubmit w s))) = no_macros)
    /\ todaysEntries (setSelectedDate (selectedDate s)
                        (setSelectedDate d (fst (handleSubmit w s))))
       = todaysEntries s ++ [entry_of w s data].
Proof.
  intros w s data d Ev Ef Hd. rewrite (handleSubmit_ok _ _ _ Ev Ef).
  unfold totals, todaysEntries. simpl.
  rewrite !append_entry_entries.
  rewrite decide_False by exact Hd. rewrite decide_True by reflexivity.
  rewrite app_nil_r. split; [reflexivity|]. split; [|reflexivity].
  intros ->. reflexivity.
Qed.

(** X22. Entries are kept in the order of the runs: after a run that got
    its data, a new description and a second run that got its data, the
    date holds its former entries, then the entry of the first run, then
    that of the second. *)
Theorem entries_in_submission_order :
  forall w1 w2 s data1 data2 m2,
    nothing_to_send s = false ->
    fetch w1 (request w1 s) = OkData data1 ->
    m2 <> "" ->
    fetch w2 (request w2 (setMessage m2 (fst (handleSubmit w1 s)))) = OkData data2 ->
    historyByDate
      (fst (handleSubmit w2 (setMessage m2 (fst (handleSubmit w1 s)))))
      !! selectedDate s
    = Some (todaysEntries s
            ++ [entry_of w1 s data1;
                entry_of w2 (setMessage m2 (fst (handleSubmit w1 s))) data2]).
Proof.
  intros w1 w2 s data1 data2 m2 Ev1 Ef1 Hm Ef2.
  assert (Ev2 : nothing_to_send (setMessage m2 (fst (handleSubmit w1 s))) = false).
  { unfold nothing_to_send. simpl. unfold empty.
    destruct (String.eqb_spec m2 ""); [contradiction|reflexivity]. }
  rewrite (handleSubmit_ok _ _ _ Ev2 Ef2).
  set (e2 := entry_of w2 _ data2).
  rewrite (handleSubmit_ok _ _ _ Ev1 Ef1). simpl.
  destruct (ClientFacts.append_entry_lookup (selectedDate s) e2
              (append_entry (selectedDate s) (entry_of w1 s data1) (historyByDate s)))
    as [-> _].
  destruct (ClientFacts.append_entry_lookup (selectedDate s) (entry_of w1 s data1)
              (historyByDate s)) as [-> _].
  simpl. unfold todaysEntries. rewrite <- app_assoc. reflexivity.
Qed.

End WithDisplay.

(** X19. The theme survives a reload: what the theme effect stores is what
    the mount effect restores, whatever the preference of the system, so
    the theme that the user toggled to is the one found again; the dark
    class is set exactly for the dark theme; and a storage that holds
    neither name leaves the choice to the preference of the system. *)
Theorem theme_survives_reload :
  (forall t p prefersDark, restoreTheme (applyTheme t p) prefersDark = t)
  /\ (forall s p prefersDark,
         restoreTheme (applyTheme (theme (toggleTheme s)) p) prefersDark
         = match theme s with light => dark | dark => light end)
  /\ (forall s, toggleTheme (toggleTheme s) = s)
  /\ (forall t p, dark_class (applyTheme t p) = true <-> t = dark)
  /\ (forall p prefersDark,
         stored_theme p <> Some "dark" ->
         stored_theme p <> Some "light" ->
         restoreTheme p prefersDark = if prefersDark then dark else light).
Proof.
  split; [intros [] p b; reflexivity|].
  split; [intros s p b; simpl; destruct (theme s); reflexivity|].
  split; [exact toggleTheme_twice|].
  split; [intros [] p; simpl; split; congruence|].
  intros p b Hd Hl. unfold restoreTheme.
  destruct (stored_theme p) as [stored|]; [|reflexivity].
  destruct (String.eqb_spec stored "dark"); [subst; contradiction|].
  destruct (String.eqb_spec stored "light"); [subst; contradiction|].
  reflexivity.
Qed.

Lemma typed_logs_rice :
  fetch (Examples.replying Examples.rice_reply)
        (request (Examples.replying Examples.rice_reply) Examples.typed)
  = OkData Examples.rice_reply.
Proof. reflexivity. Qed.

Lemma totals_after_logging_witness :
  totals (Examples.logging Examples.rice_reply) = Macros 200 4 45 1.
Proof.
  exact (@totals_after_logging Examples.display
           (Examples.replying Examples.rice_reply) Examples.typed
           Examples.rice_reply ClientFacts.typed_has_input typed_logs_rice).
Defined.

Lemma totals_unchanged_without_entry_witness :
  totals (fst (@handleSubmit Examples.display Examples.refusing Examples.typed))
  = totals Examples.typed.
Proof.
  exact (proj1 (@totals_unchanged_without_entry Examples.display
                  Examples.refusing Examples.typed
                  (or_intror
                     (ex_intro _ (Error "Unable to analyze meal right now.")
                        eq_refl)))).
Defined.

Lemma typed_to_logged :
  rtc (@step Examples.display) Examples.fresh
      (Examples.logging Examples.rice_reply).
Proof.
  eapply rtc_l; [apply (step_type "two eggs on toast")|].
  apply rtc_once.
  apply (@step_submit Examples.display (Examples.replying Examples.rice_reply)).
Qed.

Lemma log_is_append_only_witness :
  default [] (historyByDate Examples.fresh !! "2025-01-15")
    `prefix_of`
  default [] (historyByDate (Examples.logging Examples.rice_reply) !! "2025-01-15").
Proof.
  exact (@log_is_append_only Examples.display _ _ typed_to_logged "2025-01-15").
Defined.

Lemma transcript_is_append_only_witness :
  chat Examples.fresh `prefix_of` chat (Examples.logging Examples.rice_reply).
Proof.
  exact (proj1 (@transcript_is_append_only Examples.display) _ _ typed_to_logged).
Defined.

Lemma logged_is_reachable :
  @reachable Examples.display (Examples.logging Examples.rice_reply).
Proof. exists "2025-01-15". exact typed_to_logged. Qed.

Lemma logged_lookup :
  historyByDate (Examples.logging Examples.rice_reply) !! "2025-01-15"
  = Some [entry_of (Examples.replying Examples.rice_reply) Examples.typed
                   Examples.rice_reply].
Proof.
  unfold Examples.logging.
  rewrite (@ClientFacts.handleSubmit_logged Examples.display _ _ _
             ClientFacts.typed_has_input typed_logs_rice).
  apply (ClientFacts.append_entry_lookup "2025-01-15").
Qed.

Lemma logged_entries_are_titled_witness :
  [entry_of (Examples.replying Examples.rice_reply) Examples.typed
            Examples.rice_reply] <> []
  /\ Forall (fun e => MealEntry.title e <> "")
            [entry_of (Examples.replying Examples.rice_reply) Examples.typed
                      Examples.rice_reply].
Proof.
  exact (@logged_entries_are_titled Examples.display _ logged_is_reachable
           "2025-01-15" _ logged_lookup).
Defined.

Lemma successful_run_clears_error_witness :
  error (Examples.logging Examples.rice_reply) = None.
Proof.
  exact (proj1 (@successful_run_clears_error Examples.display
                  (Examples.replying Examples.rice_reply) Examples.typed
                  Examples.rice_reply ClientFacts.typed_has_input typed_logs_rice)).
Defined.

Lemma refusal_message_witness :
  error (fst (@handleSubmit Examples.display Examples.refusing Examples.typed))
  = Some "Unable to analyze meal right now."
  /\ error (fst (@handleSubmit Examples.display Examples.refusing_null Examples.typed))
     = Some "Cannot read properties of null (reading 'error')"
  /\ error (fst (@handleSubmit Examples.display Examples.refusing_garbled
                   Examples.typed))
     = Some "AI analysis failed".
Proof.
  split; [|split].
  - exact (proj1 (proj1 (@refusal_message Examples.display) Examples.refusing
                    Examples.typed _ ClientFacts.typed_has_input eq_refl)).
  - exact (proj1 (proj1 (@refusal_message Examples.display) Examples.refusing_null
                    Examples.typed _ ClientFacts.typed_has_input eq_refl)).
  - exact (proj1 (proj1 (@refusal_message Examples.display)
                    Examples.refusing_garbled
                    Examples.typed _ ClientFacts.typed_has_input eq_refl)).
Defined.

Lemma second_click_is_rejected_witness :
  snd (@handleSubmit Examples.display Examples.offline
         (Examples.logging Examples.rice_reply)) = [].
Proof.
  exact (proj1 (@second_click_is_rejected Examples.display
                  (Examples.replying Examples.rice_reply) Examples.offline
                  Examples.typed ClientFacts.typed_has_input)).
Defined.

Lemma photo_only_submission_witness :
  nothing_to_send (handleFileChange (Some "image/png;base64,iVBORw0KGgo=")
                     Examples.fresh) = false.
Proof.
  exact (proj1 (@photo_only_submission Examples.display Examples.offline
                  Examples.fresh "image/png;base64,iVBORw0KGgo=" eq_refl)).
Defined.

Lemma other_date : "2025-01-16" <> selectedDate Examples.typed.
Proof. discriminate. Qed.

Lemma entries_filed_under_date_witness :
  todaysEntries (setSelectedDate "2025-01-16" (Examples.logging Examples.rice_reply))
  = default [] (historyByDate Examples.typed !! "2025-01-16").
Proof.
  exact (proj1 (@entries_filed_under_date Examples.display
                  (Examples.replying Examples.rice_reply) Examples.typed
                  Examples.rice_reply "2025-01-16"
                  ClientFacts.typed_has_input typed_logs_rice other_date)).
Defined.

Lemma toast_then_rice_order : "rice" <> "".
Proof. discriminate. Qed.

Lemma entries_in_submission_order_witness :
  historyByDate
    (fst (@handleSubmit Examples.display (Examples.replying Examples.empty_reply)
            (setMessage "rice" (Examples.logging Examples.rice_reply))))
    !! selectedDate Examples.typed
  = Some (todaysEntries Examples.typed
          ++ [entry_of (Examples.replying Examples.rice_reply) Examples.typed
                       Examples.rice_reply;
              entry_of (Examples.replying Examples.empty_reply)
                       (setMessage "rice" (Examples.logging Examples.rice_reply))
                       Examples.empty_reply]).
Proof.
  exact (@entries_in_submission_order Examples.display
           (Examples.replying Examples.rice_reply)
           (Examples.replying Examples.empty_reply)
           Examples.typed Examples.rice_reply Examples.empty_reply "rice"
           ClientFacts.typed_has_input typed_logs_rice toast_then_rice_order
           eq_refl).
Defined.

Lemma theme_survives_reload_witness :
  restoreTheme Examples.odd_page true = dark
  /\ restoreTheme (applyTheme light Examples.dark_page) true = light.
Proof.
  split.
  - apply (proj2 (proj2 (proj2 (proj2 theme_survives_reload)))
             Examples.odd_page true); discriminate.
  - exact (proj1 theme_survives_reload light Examples.dark_page true).
Defined.

End ClientExtras.

(** ** The two reducers together *)

Module Agreement.
Import JS Gateway.

Section WithEngine.
Context `{Engine}.

Lemma reduce_item_values items : forall acc,
  reduce (map Encoding.item_value items) acc
  = Some (fold_left
            (fun acc item =>
               Macros (kcal acc + Num.or_zero (Client.MealItem.kcal item))
                      (protein acc + Num.or_zero (Client.MealItem.protein item))
                      (carbs acc + Num.or_zero (Client.MealItem.carbs item))
                      (fat acc + Num.or_zero (Client.MealItem.fat item)))
            items acc).
Proof.
  induction items as [|item rest IH]; intros acc; [reflexivity|].
  simpl. apply IH.
Qed.

(** X21. The two reducers agree: on the objects of typed items, the
    reducer of the gateway never throws and gives the totals that
    [computeTotals] gives on the items, so the total that the client
    trusts is the one it would have computed itself. *)
Theorem reducers_agree :
  forall items,
    reduce (map Encoding.item_value items) no_macros
    = Some (Client.computeTotals items).
Proof. intros items. apply reduce_item_values. Qed.

End WithEngine.

End Agreement.
